(** * Placement policy and inference coordinator of the docker-offload showcase

    Two parts are checked against the specification.

    - [Coordinator]: a shallow embedding of the inference coordinator agent
      [agents/coordinator/app.py] as the repository shows it
      (src/src/components/CodeBlock.tsx, the [pythonAgent] listing): the
      [Agent] class with [initialize] and [route_inference], the global
      [coordinator] and the four FastAPI hooks.  Python state is threaded
      explicitly, exceptions are a sum, and every request the Triton client
      sends is recorded in an event trace.

    - [Engine]: the placement policy of [docker-offload.yml] together with
      the ranking and health rules that the specification gives for it.  The
      repository declares the policy but contains no code that evaluates it,
      so those definitions are modelled from the specification and say so.

    The other parts embed the code around them.

    - [Answers]: how the coordinator's answers and its discovery are read.

    - [Scripts]: scripts/test-system.sh and scripts/test-inference.sh, as
      commands that see what the script did so far and add what they echo
      and run.

    - [Provisioning] and [Installation]: download-models.sh, setup.sh and
      the install target of the Makefile, as commands over the files.

    - [TritonModel]: the mock text classifier that download-models.sh
      writes.

    The definitions come first; the facts follow, one module for each
    part. *)

From Stdlib Require Import ZArith QArith List Bool Lia String Ascii Sorted Permutation.
From stdpp Require Import base tactics option list strings gmap.

#[local] Set Warnings "-register-all".
Local Open Scope string_scope.
Local Open Scope list_scope.
Local Open Scope Z_scope.

(* ===================================================================== *)
(** ** The coordinator agent (agents/coordinator/app.py)                  *)
(* ===================================================================== *)

Module Coordinator.

(** *** Python values and dictionaries *)

(** The values that travel in pydantic [Dict] fields, in Triton's JSON
    responses and in the handlers' answers.  The coordinator never computes
    with the numbers; they are rationals here. *)
Inductive value : Type :=
| VNone
| VNum (q : Q)
| VStr (s : string)
| VList (items : list value)
| VDict (fields : list (string * value)).

(** A Python [dict] with string keys: insertion ordered, keys unique. *)
Definition dict (V : Type) : Type := list (string * V).

Fixpoint dict_lookup {V} (d : dict V) (k : string) : option V :=
  match d with
  | [] => None
  | (k', v) :: d' => if String.eqb k' k then Some v else dict_lookup d' k
  end.

(** [k in d] *)
Definition dict_contains {V} (d : dict V) (k : string) : bool :=
  match dict_lookup d k with Some _ => true | None => false end.

(** [d[k] = v]: an existing key keeps its place, a new one goes last. *)
Fixpoint dict_setitem {V} (d : dict V) (k : string) (v : V) : dict V :=
  match d with
  | [] => [(k, v)]
  | (k', v') :: d' =>
      if String.eqb k' k then (k, v) :: d' else (k', v') :: dict_setitem d' k v
  end.

(** [list(d.keys())] *)
Definition dict_keys {V} (d : dict V) : list string := map fst d.

(** [d.get(k, default)] *)
Definition dict_get {V} (d : dict V) (k : string) (default : V) : V :=
  match dict_lookup d k with Some v => v | None => default end.

(** *** Exceptions *)

(** What a builtin or the Triton client raises: the class and [str(e)]. *)
Record pyerror : Type := PyError { err_class : string; err_str : string }.

(** [fastapi.HTTPException(status_code, detail)]. *)
Record http_exception : Type :=
  HTTPException { status_code : nat; detail : string }.

Definition KeyError (k : string) : pyerror :=
  PyError "KeyError" ("'" +:+ k +:+ "'").
Definition TypeError (msg : string) : pyerror := PyError "TypeError" msg.
Definition AttributeError (msg : string) : pyerror :=
  PyError "AttributeError" msg.

(** [v[k]] for a string key [k]. *)
Definition subscript (v : value) (k : string) : pyerror + value :=
  match v with
  | VDict d =>
      match dict_lookup d k with
      | Some x => inr x
      | None => inl (KeyError k)
      end
  | VStr _ => inl (TypeError "string indices must be integers")
  | VList _ => inl (TypeError "list indices must be integers or slices, not str")
  | _ => inl (TypeError "object is not subscriptable")
  end.

(** [for x in v]: the items a [for] loop visits. *)
Definition iterate (v : value) : pyerror + list value :=
  match v with
  | VList l => inr l
  | VDict d => inr (map (fun kv => VStr (fst kv)) d)
  | VStr s => inr (map (fun c => VStr (String c EmptyString)) (list_ascii_of_string s))
  | _ => inl (TypeError "object is not iterable")
  end.

(** [v.get(k, default)], defined on dictionaries only. *)
Definition method_get (v : value) (k : string) (default : value) : pyerror + value :=
  match v with
  | VDict d => inr (dict_get d k default)
  | _ => inl (AttributeError "object has no attribute 'get'")
  end.

(** *** The Triton client library and the servers behind it *)

(** An entry of [get_model_repository_index()]; the code reads [model.name]. *)
Record index_entry : Type := IndexEntry { name : string }.

(** The answer of [get_model_metadata(name)]. *)
Record model_metadata_reply : Type := MetadataReply {
  reply_inputs : value;
  reply_outputs : value;
  reply_platform : value
}.

(** [httpclient.InferInput(name, shape, datatype)] and its data. *)
Record InferInput : Type := MkInferInput {
  input_name : string;
  input_shape : value;
  input_datatype : value;
  input_data : value
}.

(** [InferResult]: [get_response()] and [as_numpy(name)]. *)
Record InferResult : Type := MkInferResult {
  get_response : value;
  as_numpy : value -> pyerror + value
}.

(** What one Triton endpoint answers to the three client calls the agent
    makes.  Each may raise. *)
Record server : Type := Server {
  get_model_repository_index : pyerror + list index_entry;
  get_model_metadata : string -> pyerror + model_metadata_reply;
  infer : string -> list InferInput -> pyerror + InferResult
}.

(** The environment of one handler run: the server behind every URL and the
    client-side tensor conversion [InferInput.set_data_from_numpy]. *)
Record world : Type := World {
  server_at : string -> server;
  set_data_from_numpy : InferInput -> value -> pyerror + InferInput
}.

(** *** Agent state and observable events *)

(** The dictionary stored per model by [initialize]. *)
Record model_info : Type := ModelInfo {
  info_inputs : value;
  info_outputs : value;
  info_platform : value
}.

(** [httpclient.InferenceServerClient(url=...)]: the client is bound to one
    URL for good. *)
Record InferenceServerClient : Type := Client { url : string }.

Record Agent : Type := MkAgent {
  triton_url : string;
  client : InferenceServerClient;
  model_metadata : dict model_info
}.

(** [Agent.__init__] *)
Definition Agent_init (triton_url : string) : Agent :=
  {| triton_url := triton_url;
     client := Client triton_url;
     model_metadata := [] |}.

Inductive operation : Type :=
| GetModelRepositoryIndex
| GetModelMetadata (model : string)
| Infer (model : string) (tensors : list InferInput).

Inductive event : Type :=
| Request (endpoint : string) (op : operation)   (* sent by the Triton client *)
| LogInfoDiscovered (n : nat)                     (* logging.info(f"Discovered {n} models") *)
| LogErrorInitialize (e : pyerror)                (* logging.error(f"Failed to initialize: {e}") *)
| LogErrorInference (e : pyerror).                (* logging.error(f"Inference failed: {e}") *)

(** *** A state, trace and exception monad for the method bodies

    A computation reads and updates [self], appends to the event trace and
    either returns or raises.  State changes made before a raise persist, as
    they do in Python. *)
Definition M (E A : Type) : Type := Agent -> (E + A) * Agent * list event.

Definition ret {E A} (a : A) : M E A := fun self => (inr a, self, []).

Definition raise {E A} (e : E) : M E A := fun self => (inl e, self, []).

Definition bind {E A B} (m : M E A) (k : A -> M E B) : M E B :=
  fun self =>
    match m self with
    | (inl e, self', t) => (inl e, self', t)
    | (inr a, self', t) =>
        match k a self' with
        | (r, self'', t') => (r, self'', t ++ t')
        end
    end.

(** [try: body  except Exception as e: handler e] *)
Definition try_except {E A} (body : M pyerror A) (handler : pyerror -> M E A) : M E A :=
  fun self =>
    match body self with
    | (inr a, self', t) => (inr a, self', t)
    | (inl e, self', t) =>
        match handler e self' with
        | (r, self'', t') => (r, self'', t ++ t')
        end
    end.

Definition emit {E} (ev : event) : M E unit := fun self => (inr tt, self, [ev]).

Definition get_self {E} : M E Agent := fun self => (inr self, self, []).

Definition lift {E A} (r : E + A) : M E A := fun self => (r, self, []).

(** [self.model_metadata[k] = v] *)
Definition set_model_metadata {E} (k : string) (v : model_info) : M E unit :=
  fun self =>
    (inr tt,
     {| triton_url := triton_url self;
        client := client self;
        model_metadata := dict_setitem (model_metadata self) k v |},
     []).

Declare Scope py_scope.
Delimit Scope py_scope with py.
Notation "x <- m ;; k" := (bind m (fun x => k))
  (at level 100, m at next level, right associativity) : py_scope.
Notation "m ;;; k" := (bind m (fun _ => k))
  (at level 100, right associativity) : py_scope.
Local Open Scope py_scope.

(** Locals-only code raises without touching [self]: the plain sum. *)
Definition and_then {A B} (r : pyerror + A) (k : A -> pyerror + B) : pyerror + B :=
  match r with
  | inl e => inl e
  | inr a => k a
  end.

Notation "x <~ r ;; k" := (and_then r (fun x => k))
  (at level 100, r at next level, right associativity) : py_scope.

(** [for x in xs: body x] *)
Fixpoint for_each {E A} (xs : list A) (body : A -> M E unit) : M E unit :=
  match xs with
  | [] => ret tt
  | x :: xs' => body x ;;; for_each xs' body
  end.

(** A call through [self.client]: the request goes to the client's URL and
    nowhere else. *)
Definition client_call {A} (w : world) (op : operation)
    (answer : server -> pyerror + A) : M pyerror A :=
  self <- get_self ;;
  emit (Request (url (client self)) op) ;;;
  lift (answer (server_at w (url (client self)))).

(** *** class InferenceRequest(BaseModel) *)
Record InferenceRequest : Type := MkInferenceRequest {
  model_name : string;
  inputs : dict value;
  parameters : option (dict value)
}.

(** Keys of the [outputs] dictionary a successful call returns: the hashable
    values. *)
Inductive key : Type := KNone | KNum (q : Q) | KStr (s : string).

Definition key_eqb (a b : key) : bool :=
  match a, b with
  | KNone, KNone => true
  | KNum x, KNum y => Qeq_bool x y
  | KStr x, KStr y => String.eqb x y
  | _, _ => false
  end.

Definition hash_key (v : value) : pyerror + key :=
  match v with
  | VNone => inr KNone
  | VNum q => inr (KNum q)
  | VStr s => inr (KStr s)
  | VList _ => inl (TypeError "unhashable type: 'list'")
  | VDict _ => inl (TypeError "unhashable type: 'dict'")
  end.

Fixpoint outputs_setitem (d : list (key * value)) (k : key) (v : value)
    : list (key * value) :=
  match d with
  | [] => [(k, v)]
  | (k', v') :: d' =>
      if key_eqb k' k then (k, v) :: d' else (k', v') :: outputs_setitem d' k v
  end.

Record response_metadata : Type := MkResponseMetadata {
  execution_time_ms : value;
  batch_size : value
}.

(** The dictionary [route_inference] returns. *)
Record InferenceResponse : Type := MkInferenceResponse {
  model : string;
  outputs : list (key * value);
  metadata : response_metadata
}.

(** *** class Agent: the two methods *)

(** The body of the loop [for model in models] of [initialize]. *)
Definition discover_model (w : world) (m : index_entry) : M pyerror unit :=
  metadata <- client_call w (GetModelMetadata (name m))
                (fun s => get_model_metadata s (name m)) ;;
  set_model_metadata (name m)
    {| info_inputs := reply_inputs metadata;
       info_outputs := reply_outputs metadata;
       info_platform := reply_platform metadata |}.

(** [Agent.initialize]: discover the models and their capabilities. *)
Definition initialize (w : world) : M pyerror unit :=
  try_except
    (models <- client_call w GetModelRepositoryIndex get_model_repository_index ;;
     for_each models (discover_model w) ;;;
     self <- get_self ;;
     emit (LogInfoDiscovered (length (model_metadata self))))
    (fun e => emit (LogErrorInitialize e)).

(** One turn of the loop over [request.inputs.items()].  The loop works on
    locals only, so it lives in the plain exception monad. *)
Definition prepare_input (w : world) (name : string) (data : value)
    : pyerror + InferInput :=
  shape <~ subscript data "shape" ;;
  datatype <~ subscript data "datatype" ;;
  let input_tensor := MkInferInput name shape datatype VNone in
  payload <~ subscript data "data" ;;
  set_data_from_numpy w input_tensor payload.

Fixpoint prepare_inputs (w : world) (items : list (string * value))
    (acc : list InferInput) : pyerror + list InferInput :=
  match items with
  | [] => inr acc
  | (name, data) :: rest =>
      input_tensor <~ prepare_input w name data ;;
      prepare_inputs w rest (acc ++ [input_tensor])
  end.

(** The loop over [result.get_response()['outputs']]. *)
Fixpoint collect_outputs (result : InferResult) (items : list value)
    (acc : list (key * value)) : pyerror + list (key * value) :=
  match items with
  | [] => inr acc
  | output :: rest =>
      n <~ subscript output "name" ;;
      array <~ as_numpy result n ;;
      n' <~ subscript output "name" ;;
      k <~ hash_key n' ;;
      collect_outputs result rest (outputs_setitem acc k array)
  end.

(** [request.parameters.get('batch_size', 1) if request.parameters else 1] *)
Definition requested_batch_size (request : InferenceRequest) : value :=
  match parameters request with
  | Some (_ :: _ as p) => dict_get p "batch_size" (VNum 1)
  | _ => VNum 1
  end.

(** "Process and return results": the part of the [try] block after the
    call to [self.client.infer]. *)
Definition process_results (request : InferenceRequest) (batch : value)
    (result : InferResult) : pyerror + InferenceResponse :=
  listed <~ subscript (get_response result) "outputs" ;;
  items <~ iterate listed ;;
  outs <~ collect_outputs result items [] ;;
  exec_time <~ method_get (get_response result) "exec_time_ms" (VNum 0) ;;
  inr {| model := model_name request;
         outputs := outs;
         metadata := {| execution_time_ms := exec_time;
                        batch_size := batch |} |}.

(** [Agent.route_inference] *)
Definition route_inference (w : world) (request : InferenceRequest)
    : M http_exception InferenceResponse :=
  self <- get_self ;;
  if negb (dict_contains (model_metadata self) (model_name request)) then
    raise (HTTPException 404 ("Model " +:+ model_name request +:+ " not found"))
  else
    let model_info := dict_lookup (model_metadata self) (model_name request) in
    let batch := requested_batch_size request in
    try_except
      (tensors <- lift (prepare_inputs w (inputs request) []) ;;
       result <- client_call w (Infer (model_name request) tensors)
                   (fun s => infer s (model_name request) tensors) ;;
       lift (process_results request batch result))
      (fun e =>
         emit (LogErrorInference e) ;;;
         raise (HTTPException 500 ("Inference failed: " +:+ err_str e))).

(** *** The global agent instance and the FastAPI application *)

Definition coordinator : Agent := Agent_init "http://triton-server:8000".

Module App.

(** [@app.on_event("startup")] *)
Definition startup (w : world) : M pyerror unit := initialize w.

(** [@app.post("/infer")] *)
Definition infer (w : world) (request : InferenceRequest)
    : M http_exception InferenceResponse :=
  route_inference w request.

(** [@app.get("/models")] *)
Definition list_models : M http_exception (dict (list string)) :=
  self <- get_self ;;
  ret [("models", dict_keys (model_metadata self))].

(** [@app.get("/health")] *)
Definition health : M http_exception (dict string) :=
  ret [("status", "healthy"); ("agent", "inference-coordinator")].

End App.

(** *** The running process: startup, then requests one after another *)

Inductive http_request : Type :=
| POST_infer (request : InferenceRequest)
| GET_models
| GET_health.

Inductive http_reply : Type :=
| InferReply (r : InferenceResponse)
| ModelsReply (body : dict (list string))
| HealthReply (body : dict string)
| ErrorReply (e : http_exception).

Definition reply_of {A} (wrap : A -> http_reply) (r : http_exception + A) : http_reply :=
  match r with
  | inl e => ErrorReply e
  | inr a => wrap a
  end.

(** FastAPI dispatches one request to its route; [w] is the state of the
    backends while that request is served. *)
Definition handle (w : world) (rq : http_request) (self : Agent)
    : http_reply * Agent * list event :=
  match rq with
  | POST_infer request =>
      match App.infer w request self with
      | (r, self', t) => (reply_of InferReply r, self', t)
      end
  | GET_models =>
      match App.list_models self with
      | (r, self', t) => (reply_of ModelsReply r, self', t)
      end
  | GET_health =>
      match App.health self with
      | (r, self', t) => (reply_of HealthReply r, self', t)
      end
  end.

(** The requests of a process lifetime, each with the backends' state at
    that moment. *)
Fixpoint serve (self : Agent) (rqs : list (world * http_request))
    : list http_reply * Agent * list event :=
  match rqs with
  | [] => ([], self, [])
  | (w, rq) :: rest =>
      match handle w rq self with
      | (r, self', t) =>
          match serve self' rest with
          | (rs, self'', t') => (r :: rs, self'', t ++ t')
          end
      end
  end.

(** The agent as the startup hook leaves it, with backends in state [w0]. *)
Definition started (w0 : world) : Agent :=
  match App.startup w0 coordinator with
  | (_, self, _) => self
  end.

(** *** Observations on traces and on discovery *)

(** The requests a trace holds, in order: endpoint and operation. *)
Fixpoint requests (t : list event) : list (string * operation) :=
  match t with
  | [] => []
  | Request endpoint op :: t' => (endpoint, op) :: requests t'
  | _ :: t' => requests t'
  end.

Definition with_model_metadata (self : Agent) (d : dict model_info) : Agent :=
  {| triton_url := triton_url self;
     client := client self;
     model_metadata := d |}.

(** What the loop of [initialize] has stored when it ends or raises: the
    entries up to the first model whose metadata call raises. *)
Fixpoint discover (s : server) (models : list index_entry) (d : dict model_info)
    : dict model_info * option pyerror :=
  match models with
  | [] => (d, None)
  | m :: rest =>
      match get_model_metadata s (name m) with
      | inl e => (d, Some e)
      | inr metadata =>
          discover s rest
            (dict_setitem d (name m)
               {| info_inputs := reply_inputs metadata;
                  info_outputs := reply_outputs metadata;
                  info_platform := reply_platform metadata |})
      end
  end.

Definition catalogue_after (s : server) (d : dict model_info) : dict model_info :=
  match get_model_repository_index s with
  | inl _ => d
  | inr models => fst (discover s models d)
  end.

(** *** Backends used as examples

    The two models are the ones scripts/setup.sh and download-models.sh put
    in the repository; the request is the text test of
    scripts/test-system.sh. *)

Definition example_result : InferResult :=
  MkInferResult
    (VDict [("outputs", VList [VDict [("name", VStr "OUTPUT")]])])
    (fun _ => inr (VList [VNum (8 # 10); VNum (2 # 10)])).

Definition example_index : list index_entry :=
  [IndexEntry "text_classifier"; IndexEntry "image_classifier"].

Definition example_metadata (n : string) : model_metadata_reply :=
  MetadataReply (VList [VStr "INPUT"]) (VList [VStr "OUTPUT"]) (VStr "python").

(** A server that answers every call. *)
Definition serving : server :=
  {| get_model_repository_index := inr example_index;
     get_model_metadata := fun n => inr (example_metadata n);
     infer := fun _ _ => inr example_result |}.


(** A server whose second model is listed but not loaded: its metadata call
    raises. *)
Definition half_loaded : server :=
  {| get_model_repository_index := inr example_index;
     get_model_metadata := fun n =>
       if String.eqb n "image_classifier"
       then inl (PyError "InferenceServerException" "model not ready")
       else inr (example_metadata n);
     infer := fun _ _ => inr example_result |}.

Definition store_data (t : InferInput) (data : value) : pyerror + InferInput :=
  inr {| input_name := input_name t;
         input_shape := input_shape t;
         input_datatype := input_datatype t;
         input_data := data |}.

Definition all_serving : world := World (fun _ => serving) store_data.


Definition partly_loaded : world := World (fun _ => half_loaded) store_data.

Definition text_request : InferenceRequest :=
  {| model_name := "text_classifier";
     inputs :=
       [("INPUT",
         VDict [("data", VList [VList [VNum (1 # 10); VNum (2 # 10); VNum (3 # 10);
                                       VNum (4 # 10); VNum (5 # 10)]]);
                ("shape", VList [VNum 1; VNum 5]);
                ("datatype", VStr "FP32")])];
     parameters := None |}.


End Coordinator.

(* ===================================================================== *)
(** ** The placement policy (docker-offload.yml) and its engine            *)
(* ===================================================================== *)

Module Engine.

(** *** The policy document, as docker-offload.yml declares it *)

(** [conditions: - type: ...]: the metric a condition reads. *)
Inductive Metric : Type :=
| gpu_memory_available   (* MiB *)
| latency                (* ms *)
| cpu_utilization        (* percent *)
| gpu_utilization.       (* percent *)

Inductive Comparator : Type := Lt | Le | Gt | Ge.

(** [value: ">= 8Gi"]: comparator and threshold, the threshold in the
    metric's unit. *)
Record AdmissionCondition : Type := MkCondition {
  metric : Metric;
  comparator : Comparator;
  threshold : Z
}.

(** [requirements:] of a placement entry; memory in MiB. *)
Record Requirements : Type := MkRequirements {
  gpu : option string;
  memory : option Z;
  cpu : option Z
}.

(** One entry under [placement:]; [cost_threshold] in cents per hour. *)
Record PlacementRule : Type := MkRule {
  target : string;
  priority : Z;
  requirements : Requirements;
  conditions : list AdmissionCondition;
  cost_threshold : option Z
}.

Inductive Strategy : Type := round_robin | least_loaded.

(** [routing:] *)
Record GlobalRouting : Type := MkRouting {
  latency_threshold : Z;        (* ms *)
  cost_optimization : bool;
  auto_scaling : bool;
  load_balancing : Strategy
}.

Definition Gi (n : Z) : Z := n * 1024.






(** [spec.routing] of docker-offload.yml, lines 69-73. *)
Definition routing : GlobalRouting :=
  {| latency_threshold := 100;
     cost_optimization := true;
     auto_scaling := true;
     load_balancing := round_robin |}.

(** *** Target Registry *)

(** Modelled from the spec: the tier and health enumerations of a Target
    (section 3); the repository has no registry. *)
Inductive Tier : Type := tier_local | tier_edge | tier_gpu_cluster | tier_cloud.

Inductive Health : Type := Healthy | Degraded | Unreachable.

Definition Health_eqb (a b : Health) : bool :=
  match a, b with
  | Healthy, Healthy | Degraded, Degraded | Unreachable, Unreachable => true
  | _, _ => false
  end.

(** Modelled from the spec: the Target of the data model (section 3), which
    the repository has no code for.  Identity, tier, the utilization
    snapshot the admission conditions read, the smoothed latency in ms, the
    cost in cents per hour and the health state; the two streak counters are
    what the health transitions of section 4.1 count. *)
Record Target : Type := MkTarget {
  name : string;
  tier : Tier;
  snapshot_gpu_memory_available : Z;
  snapshot_cpu_utilization : Z;
  snapshot_gpu_utilization : Z;
  smoothed_latency : Z;
  cost_per_hour : Z;
  health : Health;
  consecutive_failures : nat;
  consecutive_successes : nat
}.






(** Modelled from the spec: the Target Registry contract of section 4.1,
    [upsert], [get] and [recordOutcome], over a map keyed by target name.
    An outcome for an unknown target changes nothing. *)
Definition upsert (t : Target) (reg : gmap string Target) : gmap string Target :=
  <[ name t := t ]> reg.

(** Modelled from the spec: [get(targetId) -> Target | NotFound]. *)
Definition get (targetId : string) (reg : gmap string Target) : option Target :=
  reg !! targetId.








(** *** Capability Catalog *)

(** Modelled from the spec: a Capability entry (section 3); entries of an
    unreachable target are kept and marked stale. *)
Record Capability : Type := MkCapability {
  max_batch_size : Z;
  stale : bool
}.

(** *** Placement Decision Engine *)

(** Modelled from the spec: what [rank] consults (section 4.4): the Policy
    Store (per-service rules and the global routing settings), the Target
    Registry, the Capability Catalog keyed by (target, service), and the
    round-robin cursor of each service. *)
Record State : Type := MkState {
  policy : gmap string (list PlacementRule);
  global : GlobalRouting;
  registry : gmap string Target;
  catalog : gmap (string * string) Capability;
  cursors : gmap string nat
}.

(** Modelled from the spec: [rulesFor] of the Policy Store (section 4.3); a
    service without policy has no rules. *)
Definition rulesFor (st : State) (serviceName : string) : list PlacementRule :=
  default [] (policy st !! serviceName).

(** Modelled from the spec: [supports] of the Capability Catalog (section
    4.2); a stale entry still counts. *)
Definition supports (st : State) (targetId serviceName : string) : bool :=
  bool_decide (is_Some (catalog st !! (targetId, serviceName))).

(** Modelled from the spec: the live attribute a metric name stands for. *)
Definition read_metric (t : Target) (m : Metric) : Z :=
  match m with
  | gpu_memory_available => snapshot_gpu_memory_available t
  | latency => smoothed_latency t
  | cpu_utilization => snapshot_cpu_utilization t
  | gpu_utilization => snapshot_gpu_utilization t
  end.

Definition compare (c : Comparator) (x y : Z) : bool :=
  match c with
  | Lt => x <? y
  | Le => x <=? y
  | Gt => y <? x
  | Ge => y <=? x
  end.

(** Modelled from the spec: an AdmissionCondition is a (metric, comparator,
    threshold) triple evaluated against the target's live attributes
    (section 3). *)
Definition holds (t : Target) (c : AdmissionCondition) : bool :=
  compare (comparator c) (read_metric t (metric c)) (threshold c).

(** Modelled from the spec: "(if cost_optimization enabled) cost-per-hour
    <= rule's cost threshold (when set)" (section 4.4). *)
Definition within_cost (g : GlobalRouting) (r : PlacementRule) (t : Target) : bool :=
  if cost_optimization g then
    match cost_threshold r with
    | Some limit => cost_per_hour t <=? limit
    | None => true
    end
  else true.

(** Modelled from the spec: admissibility (section 4.4) = capability present
    AND health other than Unreachable AND all admission conditions hold AND,
    with cost optimization on, cost per hour within the rule's threshold when
    one is set.  A rule whose target the registry does not know is
    inadmissible (section 3). *)
Definition admissible (st : State) (serviceName : string) (r : PlacementRule) : bool :=
  match registry st !! target r with
  | None => false
  | Some t =>
      supports st (target r) serviceName
      && negb (Health_eqb (health t) Unreachable)
      && forallb (holds t) (conditions r)
      && within_cost (global st) r t
  end.

(** Modelled from the spec: "the condition each failed" that
    NoAdmissibleTarget carries per rule (section 4.4): the first check of
    [admissible] that fails. *)
Inductive Rejection : Type :=
| UnknownTarget
| CapabilityMissing
| TargetUnreachable
| ConditionFailed (c : AdmissionCondition)
| CostAboveThreshold.

Definition rejection (st : State) (serviceName : string) (r : PlacementRule)
    : option Rejection :=
  match registry st !! target r with
  | None => Some UnknownTarget
  | Some t =>
      if negb (supports st (target r) serviceName) then Some CapabilityMissing
      else if Health_eqb (health t) Unreachable then Some TargetUnreachable
      else match List.find (fun c => negb (holds t c)) (conditions r) with
           | Some c => Some (ConditionFailed c)
           | None =>
               if within_cost (global st) r t then None
               else Some CostAboveThreshold
           end
  end.

(** An admissible rule with its place in the declaration and its target. *)
Record Candidate : Type := MkCandidate {
  position : nat;
  rule : PlacementRule;
  placed_on : Target
}.

Fixpoint candidates_from (st : State) (serviceName : string) (i : nat)
    (rules : list PlacementRule) : list Candidate :=
  match rules with
  | [] => []
  | r :: rest =>
      match registry st !! target r with
      | Some t =>
          if admissible st serviceName r
          then MkCandidate i r t :: candidates_from st serviceName (S i) rest
          else candidates_from st serviceName (S i) rest
      | None => candidates_from st serviceName (S i) rest
      end
  end.

Definition candidates (st : State) (serviceName : string) : list Candidate :=
  candidates_from st serviceName 0 (rulesFor st serviceName).

(** Modelled from the spec: the tie-break among rules of equal priority
    (section 4.4): least-loaded orders by the target's current utilization,
    round-robin by the distance of the rule's declared position from the
    service's cursor.  The spec names the strategies and no more; the
    utilization is read as the CPU figure of the snapshot, the cursor as a
    position in the service's rule list. *)
Definition tie_break (st : State) (serviceName : string) (c : Candidate) : Z :=
  match load_balancing (global st) with
  | least_loaded => snapshot_cpu_utilization (placed_on c)
  | round_robin =>
      let n := Z.of_nat (length (rulesFor st serviceName)) in
      let cursor := Z.of_nat (default 0%nat (cursors st !! serviceName)) in
      (Z.of_nat (position c) - cursor) mod n
  end.

(** [before st s a b]: [a] is tried no later than [b]: lower priority
    number first, then the tie-break. *)
Definition before (st : State) (serviceName : string) (a b : Candidate) : bool :=
  (priority (rule a) <? priority (rule b))
  || ((priority (rule a) =? priority (rule b))
      && (tie_break st serviceName a <=? tie_break st serviceName b)).

(** Stable insertion sort; equal keys keep their declaration order. *)
Fixpoint insert_by {A} (leb : A -> A -> bool) (x : A) (l : list A) : list A :=
  match l with
  | [] => [x]
  | y :: l' => if leb x y then x :: l else y :: insert_by leb x l'
  end.

Fixpoint sort_by {A} (leb : A -> A -> bool) (l : list A) : list A :=
  match l with
  | [] => []
  | x :: l' => insert_by leb x (sort_by leb l')
  end.

(** Modelled from the spec: "emit the admissible targets in rule-priority
    order; targets tied on priority are ordered by the configured
    load_balancing strategy" (section 4.4). *)
Definition by_policy (st : State) (serviceName : string) : list Candidate :=
  sort_by (before st serviceName) (candidates st serviceName).

(** The first candidate of least cost. *)
Fixpoint cheapest (cs : list Candidate) : option Candidate :=
  match cs with
  | [] => None
  | c :: rest =>
      match cheapest rest with
      | Some c' =>
          if cost_per_hour (placed_on c') <? cost_per_hour (placed_on c)
          then Some c' else Some c
      | None => Some c
      end
  end.

Definition drop_position (i : nat) (cs : list Candidate) : list Candidate :=
  List.filter (fun c => negb (position c =? i)%nat) cs.

(** Modelled from the spec: "if cost_optimization is enabled and the
    top-ranked admissible target's cost exceeds all other admissible
    targets', prefer the cheaper one when projected latency stays under
    latency_threshold" (section 4.4).  "The cheaper one" is the cheapest of
    the others, its projected latency the smoothed latency of the registry;
    preferring it puts it first and leaves the rest as ordered. *)
Definition prefer_cheaper (g : GlobalRouting) (ordered : list Candidate)
    : list Candidate :=
  match ordered with
  | top :: (_ :: _) as others =>
      if cost_optimization g
         && forallb (fun c => cost_per_hour (placed_on c) <? cost_per_hour (placed_on top))
              others
      then
        match cheapest others with
        | Some c =>
            if smoothed_latency (placed_on c) <? latency_threshold g
            then c :: top :: drop_position (position c) others
            else ordered
        | None => ordered
        end
      else ordered
  | _ => ordered
  end.

(** Modelled from the spec: the request's resource and latency needs
    (section 6).  The algorithm of section 4.4 decides from the policy and the
    live state alone; the profile is carried, not consulted. *)
Record RequestProfile : Type := MkProfile {
  needs : Requirements;
  latency_need : option Z
}.

(** Modelled from the spec: NoAdmissibleTarget, "carrying the list of rules
    evaluated and the condition each failed" (section 4.4). *)
Record NoAdmissibleTarget : Type := MkNoAdmissibleTarget {
  evaluated : list (PlacementRule * option Rejection)
}.

(** Modelled from the spec: [rank(serviceName, requestProfile)] of section
    4.4, which the repository declares a policy for but does not implement:
    the admissible targets in policy order, the cost preference applied, or
    NoAdmissibleTarget when no rule is admissible. *)
Definition rank (st : State) (serviceName : string) (requestProfile : RequestProfile)
    : NoAdmissibleTarget + list string :=
  match prefer_cheaper (global st) (by_policy st serviceName) with
  | [] =>
      inl (MkNoAdmissibleTarget
             (map (fun r => (r, rejection st serviceName r)) (rulesFor st serviceName)))
  | ranking => inr (map (fun c => target (rule c)) ranking)
  end.


(** *** A live state used as example

    The four targets the policy names, with figures a registry could hold:
    the GPU cluster is the expensive one, the cloud pool stays within its
    cost threshold of 0.50 per hour and under the latency threshold. *)

Definition example_target (n : string) (tr : Tier)
    (gpu_memory cpu_load gpu_load ms cents : Z) : Target :=
  {| name := n;
     tier := tr;
     snapshot_gpu_memory_available := gpu_memory;
     snapshot_cpu_utilization := cpu_load;
     snapshot_gpu_utilization := gpu_load;
     smoothed_latency := ms;
     cost_per_hour := cents;
     health := Healthy;
     consecutive_failures := 0;
     consecutive_successes := 0 |}.

Definition local_host : Target :=
  example_target "local" tier_local 0 30 0 5 0.







Definition no_needs : RequestProfile :=
  {| needs := MkRequirements None None None; latency_need := None |}.



(** Scenario A of the specification: the placement of the preprocessor
    (edge first under a CPU condition, then local) for a service named
    "text_classifier", the edge target reporting 80% CPU. *)
Definition scenario_A_rules : list PlacementRule :=
  [ MkRule "edge" 1
      (MkRequirements None (Some (Gi 4)) (Some 2))
      [ MkCondition cpu_utilization Lt 70 ]
      None;
    MkRule "local" 2
      (MkRequirements None (Some (Gi 2)) (Some 1))
      []
      None ].

Definition scenario_A_state : State :=
  {| policy := {[ "text_classifier" := scenario_A_rules ]};
     global := routing;
     registry :=
       upsert (example_target "edge" tier_edge 0 80 0 15 10)
         (upsert local_host ∅);
     catalog :=
       list_to_map
         [ (("edge", "text_classifier"), MkCapability 8 false);
           (("local", "text_classifier"), MkCapability 8 false) ];
     cursors := ∅ |}.

End Engine.


(* ===================================================================== *)
(** ** Reading the coordinator's answers                                   *)
(* ===================================================================== *)

Module Answers.
Import Coordinator.

(** [outputs[k]] on the dictionary a successful /infer returns. *)
Fixpoint outputs_lookup (d : list (key * value)) (k : key) : option value :=
  match d with
  | [] => None
  | (k', v) :: d' => if key_eqb k' k then Some v else outputs_lookup d' k
  end.

(** A request whose only input has a shape and data but no datatype. *)
Definition untyped_request : InferenceRequest :=
  {| model_name := "text_classifier";
     inputs :=
       [("INPUT",
         VDict [("data", VList [VList [VNum (1 # 10)]]);
                ("shape", VList [VNum 1; VNum 1])])];
     parameters := Some [("batch_size", VNum 4)] |}.

(** What [initialize] stores for a model: three fields of the metadata
    reply. *)
Definition stored (metadata : model_metadata_reply) : model_info :=
  {| info_inputs := reply_inputs metadata;
     info_outputs := reply_outputs metadata;
     info_platform := reply_platform metadata |}.

(** The event of [self.client.get_model_metadata(model.name)]. *)
Definition metadata_request (endpoint : string) (m : index_entry) : event :=
  Request endpoint (GetModelMetadata (name m)).

End Answers.

(* ===================================================================== *)
(** ** The test scripts: scripts/test-system.sh, scripts/test-inference.sh *)
(* ===================================================================== *)

From Stdlib Require Import DecimalString.

Module Scripts.
Local Open Scope nat_scope.

(** *** The machine a script runs on *)

(** The three ways the scripts call [curl -s -f]. *)
Inductive curl_request : Type :=
| CurlGet (url : string)
| CurlPostJson (url body : string)
| CurlPostForm (url file target_model : string).

(** What a script does that can be seen from outside: the lines it echoes
    and the commands that reach the network, the clock or Docker. *)
Inductive sh_event : Type :=
| Echo (line : string)
| Curl (rq : curl_request)
| Sleep (seconds : nat)
| DockerCompose (args : list string)
| NvidiaSmi.

(** The commands the scripts run, as the machine answers them.  The network
    and Docker are asked with everything the script has done so far, so their
    answers may change while the script runs; the files and the local tools
    answer the same way throughout.
    - [curl]: the body printed when the exit status is 0, [None] otherwise
      (with [-f], also for an HTTP status of 400 and above);
    - [docker_compose]: exit status and standard output;
    - [jq]: the captured output for a filter and an input when the exit
      status is 0; a failing jq is taken to print nothing on its output;
    - [is_file]: the test [-f];
    - [base64]: the output of [base64 -w 0] on a file. *)
Record machine : Type := Machine {
  curl : list sh_event -> curl_request -> option string;
  docker_compose : list sh_event -> list string -> nat * string;
  nvidia_smi_installed : bool;
  nvidia_smi : list sh_event -> nat;
  date : string;
  jq : list string -> string -> option string;
  is_file : string -> bool;
  base64 : string -> string
}.

(** *** The shell *)

(** How a piece of script ends: it goes on with a value, the shell exits, or
    a loop was cut off before its condition became false. *)
Inductive outcome (A : Type) : Type :=
| Returned (a : A)
| Exited (status : nat)
| Unfinished.
Arguments Returned {A} a.
Arguments Exited {A} status.
Arguments Unfinished {A}.

(** A command sees what happened before it and adds its own events. *)
Definition Sh (A : Type) : Type := list sh_event -> outcome A * list sh_event.

Definition sh_ret {A} (a : A) : Sh A := fun _ => (Returned a, []).

Definition sh_exit {A} (status : nat) : Sh A := fun _ => (Exited status, []).

Definition sh_bind {A B} (c : Sh A) (k : A -> Sh B) : Sh B :=
  fun h =>
    match c h with
    | (Returned a, t) =>
        match k a (h ++ t) with
        | (r, t') => (r, t ++ t')
        end
    | (Exited status, t) => (Exited status, t)
    | (Unfinished, t) => (Unfinished, t)
    end.

Declare Scope sh_scope.
Delimit Scope sh_scope with sh.
Notation "x <- c ;; k" := (sh_bind c (fun x => k))
  (at level 100, c at next level, right associativity) : sh_scope.
Notation "c ;;; k" := (sh_bind c (fun _ => k))
  (at level 100, right associativity) : sh_scope.
Local Open Scope sh_scope.

Definition echo (line : string) : Sh unit := fun _ => (Returned tt, [Echo line]).

Definition sleep (seconds : nat) : Sh unit := fun _ => (Returned tt, [Sleep seconds]).

(** [if response=$(curl -s -f ...)]: the captured body, or the failure. *)
Definition run_curl (m : machine) (rq : curl_request) : Sh (option string) :=
  fun h => (Returned (curl m h rq), [Curl rq]).

Definition run_docker_compose (m : machine) (args : list string) : Sh (nat * string) :=
  fun h => (Returned (docker_compose m h args), [DockerCompose args]).

Definition run_nvidia_smi (m : machine) : Sh nat :=
  fun h => (Returned (nvidia_smi m h), [NvidiaSmi]).

(** [set -e]: a command that is not a condition and ends with a status other
    than 0 makes the shell exit with that status. *)
Definition errexit (c : Sh nat) : Sh unit :=
  status <- c ;;
  if status =? 0 then sh_ret tt else sh_exit status.

(** [grep -q pattern] for a pattern without special characters: does the
    text contain it. *)
Fixpoint grep_q (pattern text : string) : bool :=
  String.prefix pattern text
  || match text with
     | EmptyString => false
     | String _ rest => grep_q pattern rest
     end.

(** [$n] for a number. *)
Definition decimal (n : nat) : string := NilEmpty.string_of_uint (Nat.to_uint n).

Definition nl : string := String (Ascii.ascii_of_nat 10) EmptyString.

Definition dq : string := String (Ascii.ascii_of_nat 34) EmptyString.

Definition quoted (s : string) : string := dq +:+ s +:+ dq.

(** The lines of a here-document or of a quoted text that spans lines. *)
Fixpoint lines (ls : list string) : string :=
  match ls with
  | [] => EmptyString
  | [l] => l
  | l :: ls' => l +:+ nl +:+ lines ls'
  end.

(** [${n:-default}] *)
Definition arg_or (args : list string) (n : nat) (default : string) : string :=
  match nth_error args (n - 1) with
  | Some EmptyString | None => default
  | Some s => s
  end.

(** The exit status of a script that ends as [r]. *)
Definition exit_status (r : outcome unit) : option nat :=
  match r with
  | Returned _ => Some 0
  | Exited status => Some status
  | Unfinished => None
  end.

(** *** Observations on what a script did *)

(** The [curl] calls, in order. *)
Fixpoint curls (t : list sh_event) : list curl_request :=
  match t with
  | [] => []
  | Curl rq :: t' => rq :: curls t'
  | _ :: t' => curls t'
  end.

(** The seconds spent in [sleep]. *)
Fixpoint slept (t : list sh_event) : nat :=
  match t with
  | [] => 0
  | Sleep seconds :: t' => seconds + slept t'
  | _ :: t' => slept t'
  end.

Definition COORDINATOR_URL : string := "http://localhost:8080".

Definition PREPROCESSOR_URL : string := "http://localhost:8080".

(** *** scripts/test-system.sh *)

Module TestSystem.

(** The loop of [wait_for_service]: [while [ $attempt -le $max_attempts ]],
    with [((attempt++))] at the end of a turn.  [fuel] bounds the number of
    turns.  The function is called on the left of [||], so [set -e] is not in
    force inside it. *)
Fixpoint wait_loop (m : machine) (url service_name : string)
    (max_attempts fuel attempt : nat) : Sh nat :=
  match fuel with
  | 0 => fun _ => (Unfinished, [])
  | S fuel' =>
      if attempt <=? max_attempts then
        up <- run_curl m (CurlGet (url +:+ "/health")) ;;
        match up with
        | Some _ =>
            echo ("✅ " +:+ service_name +:+ " is ready") ;;;
            sh_ret 0
        | None =>
            echo ("   Attempt " +:+ decimal attempt +:+ "/" +:+ decimal max_attempts
                  +:+ " - waiting for " +:+ service_name +:+ "...") ;;;
            sleep 10 ;;;
            wait_loop m url service_name max_attempts fuel' (attempt + 1)
        end
      else
        echo ("❌ " +:+ service_name +:+ " failed to start after "
              +:+ decimal (max_attempts * 10) +:+ " seconds") ;;;
        sh_ret 1
  end.

(** What a turn of the loop leaves behind when its probe is refused. *)
Definition refused_attempt (url service_name : string) (max_attempts attempt : nat)
    : list sh_event :=
  [Curl (CurlGet (url +:+ "/health"));
   Echo ("   Attempt " +:+ decimal attempt +:+ "/" +:+ decimal max_attempts
         +:+ " - waiting for " +:+ service_name +:+ "...");
   Sleep 10].

(** [wait_for_service url service_name] *)
Definition wait_for_service (m : machine) (url service_name : string) : Sh nat :=
  let max_attempts := 30 in
  let attempt := 1 in
  echo ("⏳ Waiting for " +:+ service_name +:+ " to be ready...") ;;;
  wait_loop m url service_name max_attempts (S max_attempts) attempt.

(** [test_endpoint url description] *)
Definition test_endpoint (m : machine) (url description : string) : Sh nat :=
  echo ("🔍 Testing: " +:+ description) ;;;
  response <- run_curl m (CurlGet url) ;;
  match response with
  | Some response =>
      echo ("✅ " +:+ description +:+ " - OK") ;;;
      echo ("   Response: "
            +:+ match jq m ["-c"; "."] response with
                | Some compact => compact
                | None => response
                end) ;;;
      sh_ret 0
  | None =>
      echo ("❌ " +:+ description +:+ " - FAILED") ;;;
      sh_ret 1
  end.

(** The here-document of [test_inference]. *)
Definition payload (model input_data : string) : string :=
  lines ["{";
         "    " +:+ quoted "model_name" +:+ ": " +:+ quoted model +:+ ",";
         "    " +:+ quoted "inputs" +:+ ": " +:+ input_data;
         "}"].

(** [test_inference model input_data description] *)
Definition test_inference (m : machine) (model input_data description : string)
    : Sh nat :=
  echo ("🔍 Testing inference: " +:+ description) ;;;
  response <- run_curl m (CurlPostJson (COORDINATOR_URL +:+ "/infer")
                            (payload model input_data)) ;;
  match response with
  | Some response =>
      echo ("✅ " +:+ description +:+ " - OK") ;;;
      echo ("   Model: " +:+ model) ;;;
      echo ("   Response: "
            +:+ match jq m ["-c"; ".metadata // {}"] response with
                | Some compact => compact
                | None => "No metadata"
                end) ;;;
      sh_ret 0
  | None =>
      echo ("❌ " +:+ description +:+ " - FAILED") ;;;
      echo ("   Payload: " +:+ payload model input_data) ;;;
      sh_ret 1
  end.

Definition text_input : string :=
  lines ["{";
         "    " +:+ quoted "INPUT" +:+ ": {";
         "        " +:+ quoted "data" +:+ ": [[0.1, 0.2, 0.3, 0.4, 0.5]],";
         "        " +:+ quoted "shape" +:+ ": [1, 5],";
         "        " +:+ quoted "datatype" +:+ ": " +:+ quoted "FP32";
         "    }";
         "}"].

Definition image_input : string :=
  lines ["{";
         "    " +:+ quoted "INPUT" +:+ ": {";
         "        " +:+ quoted "data" +:+ ": [[[[[0.5, 0.6, 0.7]]]]],";
         "        " +:+ quoted "shape" +:+ ": [1, 3, 1, 1],";
         "        " +:+ quoted "datatype" +:+ ": " +:+ quoted "FP32";
         "    }";
         "}"].

(** The script, from its first line to its last. *)
Definition main (m : machine) : Sh unit :=
  echo "🧪 Testing AI Docker Offload System..." ;;;
  echo ("Starting system tests at " +:+ date m) ;;;
  echo "=================================" ;;;
  ps <- run_docker_compose m ["ps"] ;;
  (if negb (grep_q "Up" (snd ps)) then
     echo "❌ Docker Compose services are not running" ;;;
     echo "   Please run: docker-compose up -d" ;;;
     sh_exit 1
   else sh_ret tt) ;;;
  ready <- wait_for_service m COORDINATOR_URL "Inference Coordinator" ;;
  (if ready =? 0 then sh_ret tt else sh_exit 1) ;;;
  echo "" ;;;
  echo "🔍 Testing basic endpoints..." ;;;
  errexit (test_endpoint m (COORDINATOR_URL +:+ "/health") "Health check") ;;;
  errexit (test_endpoint m (COORDINATOR_URL +:+ "/models") "Model listing") ;;;
  errexit (test_endpoint m (COORDINATOR_URL +:+ "/agents") "Agent listing") ;;;
  echo "" ;;;
  echo "🔍 Testing mock inference..." ;;;
  errexit (test_inference m "text_classifier" text_input "Text classification") ;;;
  errexit (test_inference m "resnet50" image_input "Image classification") ;;;
  echo "" ;;;
  echo "🔍 Testing monitoring..." ;;;
  errexit (test_endpoint m (COORDINATOR_URL +:+ "/metrics") "Prometheus metrics") ;;;
  echo "" ;;;
  echo "📊 Container status:" ;;;
  errexit (ps <- run_docker_compose m ["ps"] ;; sh_ret (fst ps)) ;;;
  echo "" ;;;
  echo "🖥️  GPU status:" ;;;
  (if nvidia_smi_installed m then errexit (run_nvidia_smi m)
   else echo "   NVIDIA GPU tools not available") ;;;
  echo "" ;;;
  echo "📋 Recent service logs:" ;;;
  echo "--- Coordinator ---" ;;;
  errexit (logs <- run_docker_compose m ["logs"; "--tail=5"; "inference-coordinator"] ;;
           sh_ret (fst logs)) ;;;
  echo "--- Triton Server ---" ;;;
  errexit (logs <- run_docker_compose m ["logs"; "--tail=5"; "triton-server"] ;;
           sh_ret (fst logs)) ;;;
  echo "" ;;;
  echo "=================================" ;;;
  echo "🎉 System test complete!" ;;;
  echo "" ;;;
  echo "📊 Access points:" ;;;
  echo ("   • API Endpoint: " +:+ COORDINATOR_URL) ;;;
  echo ("   • Health Check: " +:+ COORDINATOR_URL +:+ "/health") ;;;
  echo ("   • Metrics: " +:+ COORDINATOR_URL +:+ "/metrics") ;;;
  echo "   • Triton Metrics: http://localhost:8002/metrics" ;;;
  echo "" ;;;
  echo "📚 Next steps:" ;;;
  echo "   • Run load tests: ./scripts/benchmark.sh" ;;;
  echo "   • Test with real data: ./scripts/test-inference.sh" ;;;
  echo "   • Monitor performance: http://localhost:3000".

(** The requests of the six tests, in the order the script makes them. *)
Definition checks : list curl_request :=
  [CurlGet (COORDINATOR_URL +:+ "/health");
   CurlGet (COORDINATOR_URL +:+ "/models");
   CurlGet (COORDINATOR_URL +:+ "/agents");
   CurlPostJson (COORDINATOR_URL +:+ "/infer") (payload "text_classifier" text_input);
   CurlPostJson (COORDINATOR_URL +:+ "/infer") (payload "resnet50" image_input);
   CurlGet (COORDINATOR_URL +:+ "/metrics")].

End TestSystem.

(** *** scripts/test-inference.sh *)

Module TestInference.

(** The jq filter that builds the body of the inference request. *)
Definition inference_filter (model : string) : string :=
  lines ["{";
         "            model_name: " +:+ quoted model +:+ ",";
         "            inputs: .preprocessed_data";
         "        }"].

(** The here-document of [test_text] and [test_image]. *)
Definition payload (data_type data target_model : string) : string :=
  lines ["{";
         "    " +:+ quoted "data_type" +:+ ": " +:+ quoted data_type +:+ ",";
         "    " +:+ quoted "data" +:+ ": " +:+ quoted data +:+ ",";
         "    " +:+ quoted "target_model" +:+ ": " +:+ quoted target_model;
         "}"].

(** [$(echo "$response" | jq -c '.metadata // {}' 2>/dev/null)] *)
Definition metadata_of (m : machine) (response : string) : string :=
  match jq m ["-c"; ".metadata // {}"] response with
  | Some compact => compact
  | None => EmptyString
  end.

(** [test_text text].  The status is the one of the last [echo]. *)
Definition test_text (m : machine) (text : string) : Sh nat :=
  echo ("🔤 Testing text inference: '" +:+ text +:+ "'") ;;;
  let payload := payload "text" text "text_classifier" in
  echo "Preprocessing text..." ;;;
  preprocess_response <- run_curl m (CurlPostJson (PREPROCESSOR_URL +:+ "/preprocess")
                                       payload) ;;
  match preprocess_response with
  | Some preprocess_response =>
      echo "✅ Text preprocessing successful" ;;;
      echo ("   Response: " +:+ metadata_of m preprocess_response) ;;;
      let inference_payload :=
        match jq m [inference_filter "text_classifier"] preprocess_response with
        | Some built => built
        | None => EmptyString
        end in
      echo "Running inference..." ;;;
      inference_response <- run_curl m (CurlPostJson (COORDINATOR_URL +:+ "/infer")
                                          inference_payload) ;;
      match inference_response with
      | Some inference_response =>
          echo "✅ Text inference successful" ;;;
          echo ("   Result: " +:+ metadata_of m inference_response) ;;;
          sh_ret 0
      | None =>
          echo "❌ Text inference failed" ;;;
          sh_ret 0
      end
  | None =>
      echo "❌ Text preprocessing failed" ;;;
      sh_ret 0
  end.

(** [test_image image_path] *)
Definition test_image (m : machine) (image_path : string) : Sh nat :=
  if negb (is_file m image_path) then
    echo ("❌ Image file not found: " +:+ image_path) ;;;
    sh_ret 1
  else
    echo ("🖼️  Testing image inference: " +:+ image_path) ;;;
    let image_b64 := base64 m image_path in
    let payload := payload "image" image_b64 "resnet50" in
    echo "Preprocessing image..." ;;;
    preprocess_response <- run_curl m (CurlPostJson (PREPROCESSOR_URL +:+ "/preprocess")
                                         payload) ;;
    match preprocess_response with
    | Some preprocess_response =>
        echo "✅ Image preprocessing successful" ;;;
        echo ("   Response: " +:+ metadata_of m preprocess_response) ;;;
        let inference_payload :=
          match jq m [inference_filter "resnet50"] preprocess_response with
          | Some built => built
          | None => EmptyString
          end in
        echo "Running inference..." ;;;
        inference_response <- run_curl m (CurlPostJson (COORDINATOR_URL +:+ "/infer")
                                            inference_payload) ;;
        match inference_response with
        | Some inference_response =>
            echo "✅ Image inference successful" ;;;
            echo ("   Result: " +:+ metadata_of m inference_response) ;;;
            sh_ret 0
        | None =>
            echo "❌ Image inference failed" ;;;
            sh_ret 0
        end
    | None =>
        echo "❌ Image preprocessing failed" ;;;
        sh_ret 0
    end.

(** [test_file_upload file_path model] *)
Definition test_file_upload (m : machine) (file_path model : string) : Sh nat :=
  if negb (is_file m file_path) then
    echo ("❌ File not found: " +:+ file_path) ;;;
    sh_ret 1
  else
    echo ("📎 Testing file upload: " +:+ file_path) ;;;
    response <- run_curl m (CurlPostForm (PREPROCESSOR_URL +:+ "/preprocess/file")
                              file_path model) ;;
    match response with
    | Some response =>
        echo "✅ File upload and preprocessing successful" ;;;
        echo ("   Response: " +:+ metadata_of m response) ;;;
        sh_ret 0
    | None =>
        echo "❌ File upload failed" ;;;
        sh_ret 0
    end.

(** The script with its arguments [$1], [$2], [$3]. *)
Definition main (m : machine) (args : list string) : Sh unit :=
  echo "🧪 AI Inference Testing Suite" ;;;
  echo "==============================" ;;;
  up <- run_curl m (CurlGet (COORDINATOR_URL +:+ "/health")) ;;
  match up with
  | None =>
      echo ("❌ Coordinator service not available at " +:+ COORDINATOR_URL) ;;;
      echo "   Please ensure services are running: docker-compose up -d" ;;;
      sh_exit 1
  | Some _ => sh_ret tt
  end ;;;
  (let mode := arg_or args 1 "all" in
   if String.eqb mode "text" then
     errexit (test_text m (arg_or args 2 "Hello, this is a test message for AI inference"))
   else if String.eqb mode "image" then
     errexit (test_image m (arg_or args 2 "./test-data/sample.jpg"))
   else if String.eqb mode "file" then
     errexit (test_file_upload m (arg_or args 2 "./test-data/sample.jpg")
                (arg_or args 3 "resnet50"))
   else
     echo "Running all tests..." ;;;
     echo "" ;;;
     errexit (test_text m "This is a sample text for AI classification and analysis") ;;;
     echo "" ;;;
     (if is_file m "./test-data/sample.jpg" then
        errexit (test_image m "./test-data/sample.jpg")
      else echo "⚠️  No sample image found, skipping image test") ;;;
     echo "" ;;;
     (if is_file m "./test-data/sample.txt" then
        errexit (test_file_upload m "./test-data/sample.txt" "text_classifier")
      else echo "⚠️  No sample text file found, skipping file upload test")) ;;;
  echo "" ;;;
  echo "🎉 Testing complete!" ;;;
  echo "" ;;;
  echo "💡 Usage examples:" ;;;
  echo "   ./scripts/test-inference.sh text 'Your custom text here'" ;;;
  echo "   ./scripts/test-inference.sh image /path/to/image.jpg" ;;;
  echo "   ./scripts/test-inference.sh file /path/to/file.txt text_classifier".

(** Whether the file the chosen test needs is there; the tests of text and
    of everything need none. *)
Definition needed_file_present (m : machine) (args : list string) : bool :=
  let mode := arg_or args 1 "all" in
  if String.eqb mode "image" || String.eqb mode "file"
  then is_file m (arg_or args 2 "./test-data/sample.jpg")
  else true.

End TestInference.

(** *** Machines used as examples *)

(** Everything is up and answers with an empty JSON object. *)
Definition healthy_machine : machine :=
  {| curl := fun _ _ => Some "{}";
     docker_compose := fun _ _ => (0, "triton-server   Up");
     nvidia_smi_installed := false;
     nvidia_smi := fun _ => 0;
     date := "Mon Jan  1 00:00:00 UTC 2024";
     jq := fun _ input => Some input;
     is_file := fun _ => false;
     base64 := fun _ => EmptyString |}.

(** The containers are up but no request is ever answered. *)
Definition silent_machine : machine :=
  {| curl := fun _ _ => None;
     docker_compose := fun _ _ => (0, "triton-server   Up");
     nvidia_smi_installed := false;
     nvidia_smi := fun _ => 0;
     date := "Mon Jan  1 00:00:00 UTC 2024";
     jq := fun _ _ => None;
     is_file := fun _ => false;
     base64 := fun _ => EmptyString |}.

(** The coordinator answers its health check and nothing else. *)
Definition health_only_machine : machine :=
  {| curl := fun _ rq =>
       match rq with
       | CurlGet url =>
           if String.eqb url "http://localhost:8080/health" then Some "{}" else None
       | _ => None
       end;
     docker_compose := fun _ _ => (0, "triton-server   Up");
     nvidia_smi_installed := false;
     nvidia_smi := fun _ => 0;
     date := "Mon Jan  1 00:00:00 UTC 2024";
     jq := fun _ _ => None;
     is_file := fun _ => false;
     base64 := fun _ => EmptyString |}.

End Scripts.

(* ===================================================================== *)
(** ** The model download script (download-models.sh)                      *)
(* ===================================================================== *)

Module Provisioning.
Import Scripts.
Local Open Scope nat_scope.

(** *** Files and directories *)

(** A path relative to the directory the script runs in, one name per
    component: [models/text_classifier] is ["models"; "text_classifier"]. *)
Definition path : Type := list string.

Inductive node : Type :=
| File (content : string)
| Dir.

(** What is at each path; the directory the script runs in is [[]]. *)
Definition file_system : Type := path -> option node.

Definition path_eqb (p q : path) : bool :=
  if List.list_eq_dec String.string_dec p q then true else false.

Definition put (s : file_system) (p : path) (n : node) : file_system :=
  fun q => if path_eqb q p then Some n else s q.

(** [[ -f p ]] *)
Definition is_regular_file (s : file_system) (p : path) : bool :=
  match s p with
  | Some (File _) => true
  | _ => false
  end.

(** [[ -d p ]]; the directory the script runs in exists. *)
Definition is_directory (s : file_system) (p : path) : bool :=
  match p with
  | [] => true
  | _ =>
      match s p with
      | Some Dir => true
      | _ => false
      end
  end.

(** [dirname p] *)
Definition dirname (p : path) : path := removelast p.

(** [$p] as text. *)
Fixpoint path_text (p : path) : string :=
  match p with
  | [] => "."
  | [c] => c
  | c :: p' => c +:+ "/" +:+ path_text p'
  end.

(** [mkdir -p] on one operand, component by component below [above]: a
    directory that is there is kept, a missing one is made, and a file in the
    way makes it fail, with what was made before left in place. *)
Fixpoint mkdir_p_below (above below : path) (s : file_system) : bool * file_system :=
  match below with
  | [] => (true, s)
  | c :: below' =>
      let here := above ++ [c] in
      match s here with
      | Some (File _) => (false, s)
      | Some Dir => mkdir_p_below here below' s
      | None => mkdir_p_below here below' (put s here Dir)
      end
  end.

(** [mkdir -p p1 p2 ...]: every operand is tried; the status is 0 when all
    were made. *)
Fixpoint mkdir_p (operands : list path) (s : file_system) : nat * file_system :=
  match operands with
  | [] => (0, s)
  | p :: operands' =>
      match mkdir_p_below [] p s with
      | (made, s') =>
          match mkdir_p operands' s' with
          | (status, s'') => (if made then status else 1, s'')
          end
      end
  end.

(** [command > p] with the text the command prints: the redirection fails
    when [p] is a directory or is not in one, and the command is not run. *)
Definition redirect (p : path) (content : string) (s : file_system)
    : nat * file_system :=
  if is_directory s p then (1, s)
  else if is_directory s (dirname p) then (0, put s p (File content))
  else (1, s).

(** [chmod +x p]: permissions are not kept; the command fails when nothing
    is at [p]. *)
Definition chmod_x (p : path) (s : file_system) : nat * file_system :=
  match p, s p with
  | _ :: _, None => (1, s)
  | _, _ => (0, s)
  end.

(** The programs the script runs without the shell knowing what they do:
    [python3 -c code], which may change files and print, and the pipeline
    [find models/ ... | head -10], which prints. *)
Record tools : Type := Tools {
  python3 : string -> file_system -> nat * file_system * list string;
  find_models : file_system -> list string
}.

(** *** The shell, with the files as state *)

Definition Fs (A : Type) : Type :=
  file_system -> outcome A * file_system * list string.

Definition fs_ret {A} (a : A) : Fs A := fun s => (Returned a, s, []).

Definition fs_exit {A} (status : nat) : Fs A := fun s => (Exited status, s, []).

Definition fs_bind {A B} (c : Fs A) (k : A -> Fs B) : Fs B :=
  fun s =>
    match c s with
    | (Returned a, s', out) =>
        match k a s' with
        | (r, s'', out') => (r, s'', out ++ out')
        end
    | (Exited status, s', out) => (Exited status, s', out)
    | (Unfinished, s', out) => (Unfinished, s', out)
    end.

Declare Scope fs_scope.
Delimit Scope fs_scope with fs.
Notation "x <- c ;; k" := (fs_bind c (fun x => k))
  (at level 100, c at next level, right associativity) : fs_scope.
Notation "c ;;; k" := (fs_bind c (fun _ => k))
  (at level 100, right associativity) : fs_scope.
Local Open Scope fs_scope.

(** [echo line] *)
Definition say (line : string) : Fs unit := fun s => (Returned tt, s, [line]).

Definition files : Fs file_system := fun s => (Returned s, s, []).

(** A command that changes files and ends with a status. *)
Definition command (c : file_system -> nat * file_system) : Fs nat :=
  fun s => match c s with (status, s') => (Returned status, s', []) end.

(** [set -e] *)
Definition or_exit (c : Fs nat) : Fs unit :=
  status <- c ;;
  if status =? 0 then fs_ret tt else fs_exit status.

(** [for x in xs; do body; done] *)
Fixpoint for_in {A} (xs : list A) (body : A -> Fs unit) : Fs unit :=
  match xs with
  | [] => fs_ret tt
  | x :: xs' => body x ;;; for_in xs' body
  end.

(** *** download-models.sh *)

(** The here-document of line 28, newline at the end included. *)
Definition text_classifier_mock : string :=
  lines ["import numpy as np";
         "import triton_python_backend_utils as pb_utils";
         "";
         "class TritonPythonModel:";
         "    def initialize(self, args):";
         "        pass";
         "    ";
         "    def execute(self, requests):";
         "        responses = []";
         "        for request in requests:";
         "            input_tensor = pb_utils.get_input_tensor_by_name(request, "
           +:+ quoted "INPUT" +:+ ")";
         "            input_data = input_tensor.as_numpy()";
         "            ";
         "            # Mock classification: random binary classification";
         "            output_data = np.random.rand(input_data.shape[0], 2).astype(np.float32)";
         "            output_tensor = pb_utils.Tensor(" +:+ quoted "OUTPUT" +:+ ", output_data)";
         "            response = pb_utils.InferenceResponse(output_tensors=[output_tensor])";
         "            responses.append(response)";
         "        return responses";
         ""].

(** The program given to [python3 -c] for the image classifier. *)
Definition onnx_mock_program (model_path : path) : string :=
  lines ["";
         "import numpy as np";
         "import os";
         "os.makedirs('" +:+ path_text model_path +:+ "', exist_ok=True)";
         "# Create dummy ONNX model placeholder";
         "with open('" +:+ path_text model_path +:+ "/model.onnx', 'wb') as f:";
         "    f.write(b'MOCK_ONNX_MODEL_DATA')";
         "print('Created mock ONNX model')";
         ""].

(** The here-document of line 78. *)
Definition triton_config : string :=
  lines ["# Global Triton configuration";
         "backend_directory: " +:+ quoted "/opt/tritonserver/backends";
         "model_repository_path: " +:+ quoted "/models";
         "strict_model_config: false";
         "log_verbose: 1";
         "";
         "# Resource limits";
         "cuda_memory_pool_byte_size { ";
         "  key: 0 ";
         "  value: 1073741824  # 1GB";
         "}";
         ""].

(** The here-document of line 103. *)
Definition text_classifier_model : string :=
  lines ["import json";
         "import numpy as np";
         "import triton_python_backend_utils as pb_utils";
         "from transformers import pipeline";
         "";
         "class TritonPythonModel:";
         "    def initialize(self, args):";
         "        # Initialize mock classifier";
         "        self.classifier = lambda x: [{" +:+ quoted "label" +:+ ": "
           +:+ quoted "POSITIVE" +:+ ", " +:+ quoted "score" +:+ ": 0.8}]";
         "    ";
         "    def execute(self, requests):";
         "        responses = []";
         "        for request in requests:";
         "            # Get input text";
         "            input_tensor = pb_utils.get_input_tensor_by_name(request, "
           +:+ quoted "INPUT" +:+ ")";
         "            text_input = input_tensor.as_numpy()";
         "            ";
         "            # Mock classification";
         "            batch_size = text_input.shape[0]";
         "            output_data = np.random.rand(batch_size, 2).astype(np.float32)";
         "            output_data[:, 0] = 0.8  # Positive class";
         "            output_data[:, 1] = 0.2  # Negative class";
         "            ";
         "            output_tensor = pb_utils.Tensor(" +:+ quoted "OUTPUT" +:+ ", output_data)";
         "            response = pb_utils.InferenceResponse(output_tensors=[output_tensor])";
         "            responses.append(response)";
         "        ";
         "        return responses";
         "    ";
         "    def finalize(self):";
         "        pass";
         ""].

(** [download_model model_name model_url model_path].  It is only called as
    a command of its own, so [set -e] is in force inside it. *)
Definition download_model (m : tools) (model_name model_url : string)
    (model_path : path) : Fs nat :=
  say ("⬇️  Downloading " +:+ model_name +:+ "...") ;;;
  s <- files ;;
  if negb (is_regular_file s model_path) then
    say ("Creating mock model: " +:+ model_name) ;;;
    or_exit (command (mkdir_p [dirname model_path])) ;;;
    if String.eqb model_name "text_classifier" then
      or_exit (command (redirect (model_path ++ ["model.py"]) text_classifier_mock)) ;;;
      fs_ret 0
    else if String.eqb model_name "image_classifier" then
      (fun s =>
         match python3 m (onnx_mock_program model_path) s with
         | (0, s', printed) => (Returned 0, s', printed)
         | (_, s', printed) =>
             (Returned 0, s',
              printed ++ ["⚠️  Python not available for ONNX model creation"])
         end)
    else fs_ret 0
  else
    say ("✅ " +:+ model_name +:+ " already exists") ;;;
    fs_ret 0.

(** The operands of line 9 after brace expansion. *)
Definition model_directories : list path :=
  [["models"; "text_classifier"; "1"];
   ["models"; "text_classifier"; "model.py"];
   ["models"; "image_classifier"; "1"];
   ["models"; "image_classifier"; "model.py"];
   ["models"; "speech_to_text"; "1"];
   ["models"; "speech_to_text"; "model.py"]].

(** The script. *)
Definition download_models (m : tools) : Fs unit :=
  say "📥 Downloading AI models for testing..." ;;;
  or_exit (command (mkdir_p model_directories)) ;;;
  or_exit (command (mkdir_p [["triton-config"]])) ;;;
  or_exit (download_model m "text_classifier" "" ["models"; "text_classifier"]) ;;;
  or_exit (download_model m "image_classifier" "" ["models"; "image_classifier"]) ;;;
  say "📁 Setting up Triton configuration..." ;;;
  or_exit (command (mkdir_p [["triton-config"]])) ;;;
  or_exit (command (redirect ["triton-config"; "config.pbtxt"] triton_config)) ;;;
  say "📦 Creating model versions..." ;;;
  for_in ["text_classifier"; "image_classifier"]
    (fun model =>
       or_exit (command (mkdir_p [["models"; model; "1"]])) ;;;
       or_exit (command (redirect ["models"; model; "1"; "version.txt"]
                           ("# Version 1 of " +:+ model +:+ nl)))) ;;;
  say "🧪 Creating test model files..." ;;;
  or_exit (command (redirect ["models"; "text_classifier"; "1"; "model.py"]
                      text_classifier_model)) ;;;
  or_exit (command (chmod_x ["models"; "text_classifier"; "1"; "model.py"])) ;;;
  say "✅ Model download and setup complete!" ;;;
  say "" ;;;
  say "📊 Model inventory:" ;;;
  (fun s => (Returned tt, s, find_models m s)) ;;;
  say "" ;;;
  say "Next steps:" ;;;
  say "1. Start services: docker-compose up -d" ;;;
  say "2. Test models: ./scripts/test-system.sh" ;;;
  say "3. Monitor: ./scripts/benchmark.sh".

(** *** Examples *)

(** An empty directory. *)
Definition empty_directory : file_system := fun _ => None.

(** Tools that do nothing and succeed. *)
Definition idle_tools : tools :=
  {| python3 := fun _ s => (0, s, []);
     find_models := fun _ => [] |}.

End Provisioning.

(* ===================================================================== *)
(** ** The mock text classifier that download-models.sh writes             *)
(* ===================================================================== *)

Module TritonModel.
Local Open Scope nat_scope.

(** *** numpy and the Python backend *)

(** An array: a number, or a list of arrays along its first axis. *)
Inductive ndarray (A : Type) : Type :=
| Scalar (x : A)
| Axis (items : list (ndarray A)).
Arguments Scalar {A} x.
Arguments Axis {A} items.

(** What the model uses of numpy: the rounding of [astype(np.float32)] and
    the numbers the generator behind [np.random.rand] draws, one after the
    other. *)
Record numpy : Type := Numpy {
  float32 : Q -> Q;
  drawn : nat -> Q
}.

(** [pb_utils.Tensor(name, array)] *)
Record Tensor (A : Type) : Type := MkTensor {
  tensor_name : string;
  as_numpy : ndarray A
}.
Arguments MkTensor {A} tensor_name as_numpy.
Arguments tensor_name {A} t.
Arguments as_numpy {A} t.

(** A request as [execute] receives it: its input tensors, here of text. *)
Record InferenceRequest : Type := MkInferenceRequest {
  inputs : list (Tensor string)
}.

(** [pb_utils.InferenceResponse(output_tensors=...)] *)
Record InferenceResponse : Type := MkInferenceResponse {
  output_tensors : list (Tensor Q)
}.

(** [pb_utils.get_input_tensor_by_name(request, name)]: the tensor, or
    [None]. *)
Definition get_input_tensor_by_name (request : InferenceRequest) (name : string)
    : option (Tensor string) :=
  List.find (fun t => String.eqb (tensor_name t) name) (inputs request).

(** [a.shape[0]]: an array without axes has the empty tuple as shape. *)
Definition shape_0 {A} (a : ndarray A) : Coordinator.pyerror + nat :=
  match a with
  | Axis items => inr (length items)
  | Scalar _ => inl (Coordinator.PyError "IndexError" "tuple index out of range")
  end.

(** [np.random.rand(d0, d1)] when the generator has drawn [g] numbers: the
    array, filled row by row, and the numbers drawn after it. *)
Definition random_rand (np : numpy) (g d0 d1 : nat) : ndarray Q * nat :=
  (Axis (map (fun i => Axis (map (fun j => Scalar (drawn np (g + i * d1 + j)))
                               (seq 0 d1)))
           (seq 0 d0)),
   g + d0 * d1).

(** [a.astype(np.float32)] *)
Fixpoint astype_float32 (np : numpy) (a : ndarray Q) : ndarray Q :=
  match a with
  | Scalar x => Scalar (float32 np x)
  | Axis items => Axis (map (astype_float32 np) items)
  end.

(** [row[j] = x] for one row of a float32 array. *)
Definition set_item (np : numpy) (row : ndarray Q) (j : nat) (x : Q)
    : Coordinator.pyerror + ndarray Q :=
  match row with
  | Axis columns =>
      if j <? length columns
      then inr (Axis (<[ j := Scalar (float32 np x) ]> columns))
      else inl (Coordinator.PyError "IndexError" "index out of bounds")
  | Scalar _ => inl (Coordinator.PyError "IndexError" "too many indices for array")
  end.

Fixpoint set_items (np : numpy) (rows : list (ndarray Q)) (j : nat) (x : Q)
    : Coordinator.pyerror + list (ndarray Q) :=
  match rows with
  | [] => inr []
  | row :: rows' =>
      match set_item np row j x with
      | inl e => inl e
      | inr row' =>
          match set_items np rows' j x with
          | inl e => inl e
          | inr rows'' => inr (row' :: rows'')
          end
      end
  end.

(** [a[:, j] = x] *)
Definition set_column (np : numpy) (a : ndarray Q) (j : nat) (x : Q)
    : Coordinator.pyerror + ndarray Q :=
  match a with
  | Axis rows =>
      match set_items np rows j x with
      | inl e => inl e
      | inr rows' => inr (Axis rows')
      end
  | Scalar _ => inl (Coordinator.PyError "IndexError" "too many indices for array")
  end.

(** *** class TritonPythonModel of models/text_classifier/1/model.py *)

(** The body of the loop of [execute] for one request: the response, and
    the numbers drawn after it. *)
Definition respond (np : numpy) (request : InferenceRequest) (g : nat)
    : Coordinator.pyerror + InferenceResponse * nat :=
  match get_input_tensor_by_name request "INPUT" with
  | None =>
      inl (Coordinator.AttributeError "'NoneType' object has no attribute 'as_numpy'")
  | Some input_tensor =>
      let text_input := as_numpy input_tensor in
      match shape_0 text_input with
      | inl e => inl e
      | inr batch_size =>
          match random_rand np g batch_size 2 with
          | (output_data, g') =>
              let output_data := astype_float32 np output_data in
              match set_column np output_data 0 (8 # 10) with
              | inl e => inl e
              | inr output_data =>
                  match set_column np output_data 1 (2 # 10) with
                  | inl e => inl e
                  | inr output_data =>
                      let output_tensor := MkTensor "OUTPUT" output_data in
                      let response := MkInferenceResponse [output_tensor] in
                      inr (response, g')
                  end
              end
          end
      end
  end.

(** [for request in requests: ... responses.append(response)] *)
Fixpoint respond_to_all (np : numpy) (requests : list InferenceRequest)
    (responses : list InferenceResponse) (g : nat)
    : Coordinator.pyerror + list InferenceResponse * nat :=
  match requests with
  | [] => inr (responses, g)
  | request :: requests' =>
      match respond np request g with
      | inl e => inl e
      | inr (response, g') => respond_to_all np requests' (responses ++ [response]) g'
      end
  end.

(** [TritonPythonModel.execute] *)
Definition execute (np : numpy) (requests : list InferenceRequest) (g : nat)
    : Coordinator.pyerror + list InferenceResponse * nat :=
  respond_to_all np requests [] g.

(** *** Reading requests and responses *)

(** The batch size [execute] reads off a request: the length of the first
    axis of its input named INPUT. *)
Definition batch_of (request : InferenceRequest) : option nat :=
  match get_input_tensor_by_name request "INPUT" with
  | Some (MkTensor _ (Axis items)) => Some (length items)
  | _ => None
  end.

(** The scores the mock gives to one text. *)
Definition positive (np : numpy) : ndarray Q :=
  Axis [Scalar (float32 np (8 # 10)); Scalar (float32 np (2 # 10))].

(** *** Examples *)

(** Rounding left out, and a generator that counts in hundredths. *)
Definition example_numpy : numpy :=
  {| float32 := fun x => x;
     drawn := fun n => Z.of_nat n # 100 |}.

Definition two_texts : InferenceRequest :=
  {| inputs := [MkTensor "INPUT" (Axis [Scalar "good"; Scalar "bad"])] |}.

Definition unnamed_input : InferenceRequest :=
  {| inputs := [MkTensor "TEXT" (Axis [Scalar "good"])] |}.

End TritonModel.

(* ===================================================================== *)
(** ** Installation: setup.sh and the Makefile's install target            *)
(* ===================================================================== *)

Module Installation.
Import Scripts.
Import Provisioning.
Local Open Scope nat_scope.
Local Open Scope fs_scope.

(** *** The host *)

(** What the host answers to the commands of setup.sh and of the Makefile.
    - [docker_installed], [docker_compose_installed]: [command -v];
    - [docker_compose_version]: the status of [docker compose version];
    - [docker_run_gpu]: the status of the [docker run --gpus all ...
      nvidia-smi] of line 24;
    - [validate_system]: scripts/validate-system.sh, which the Makefile
      runs, taken as any script: any status, change of files and output. *)
Record host : Type := Host {
  host_tools : tools;
  docker_installed : bool;
  docker_compose_installed : bool;
  docker_compose_version : nat;
  docker_run_gpu : nat;
  validate_system : file_system -> nat * file_system * list string
}.

(** *** setup.sh *)

Definition text_classifier_config : string :=
  lines ["name: " +:+ quoted "text_classifier";
         "platform: " +:+ quoted "python";
         "max_batch_size: 8";
         "input [";
         "  {";
         "    name: " +:+ quoted "INPUT";
         "    data_type: TYPE_FP32";
         "    dims: [ 512 ]";
         "  }";
         "]";
         "output [";
         "  {";
         "    name: " +:+ quoted "OUTPUT";
         "    data_type: TYPE_FP32";
         "    dims: [ 2 ]";
         "  }";
         "]";
         ""].

Definition image_classifier_config : string :=
  lines ["name: " +:+ quoted "resnet50";
         "platform: " +:+ quoted "onnxruntime_onnx";
         "max_batch_size: 8";
         "input [";
         "  {";
         "    name: " +:+ quoted "INPUT";
         "    data_type: TYPE_FP32";
         "    dims: [ 3, 224, 224 ]";
         "  }";
         "]";
         "output [";
         "  {";
         "    name: " +:+ quoted "OUTPUT";
         "    data_type: TYPE_FP32";
         "    dims: [ 1000 ]";
         "  }";
         "]";
         ""].

Definition prometheus_config : string :=
  lines ["global:";
         "  scrape_interval: 15s";
         "";
         "scrape_configs:";
         "  - job_name: 'triton'";
         "    static_configs:";
         "      - targets: ['triton-server:8002']";
         "  ";
         "  - job_name: 'coordinator'";
         "    static_configs:";
         "      - targets: ['inference-coordinator:8080']";
         "    metrics_path: '/metrics'";
         ""].

(** The program given to [python3 -c] for the sample image. *)
Definition sample_image_program : string :=
  lines ["";
         "import numpy as np";
         "from PIL import Image";
         "import os";
         "";
         "# Create a simple test image";
         "img = np.random.randint(0, 255, (224, 224, 3), dtype=np.uint8)";
         "image = Image.fromarray(img)";
         "image.save('test-data/sample.jpg')";
         "print('Created sample test image')";
         ""].

Definition environment_file : string :=
  lines ["# AI Docker Offload Configuration";
         "TRITON_URL=triton-server:8000";
         "PREPROCESSOR_URL=preprocessor:8000";
         "COORDINATOR_URL=inference-coordinator:8080";
         "AGGREGATOR_URL=aggregator:8000";
         "";
         "# GPU Configuration";
         "NVIDIA_VISIBLE_DEVICES=all";
         "GPU_MEMORY_LIMIT=8Gi";
         "";
         "# Offload Configuration";
         "OFFLOAD_ENABLED=false";
         "CLOUD_ENDPOINT=";
         "";
         "# Logging";
         "LOG_LEVEL=INFO";
         ""].

(** [python3 -c program 2>/dev/null || echo warning] *)
Definition python3_or_warn (h : host) (program warning : string) : Fs unit :=
  fun s =>
    match python3 (host_tools h) program s with
    | (0, s', printed) => (Returned tt, s', printed)
    | (_, s', printed) => (Returned tt, s', printed ++ [warning])
    end.

(** [chmod +x scripts/*.sh 2>/dev/null || true]: permissions are not kept,
    what it prints is thrown away and so is its status. *)
Definition chmod_scripts_or_true : Fs unit := fs_ret tt.

(** The script. *)
Definition setup (h : host) : Fs unit :=
  say "🚀 Setting up AI Docker Offload Demo..." ;;;
  say "📋 Checking prerequisites..." ;;;
  (if negb (docker_installed h) then
     say "❌ Docker is not installed. Please install Docker Engine 20.10+" ;;;
     fs_exit 1
   else fs_ret tt) ;;;
  (if negb (docker_compose_installed h) && negb (docker_compose_version h =? 0) then
     say "❌ Docker Compose is not installed. Please install Docker Compose v2.0+" ;;;
     fs_exit 1
   else fs_ret tt) ;;;
  (if negb (docker_run_gpu h =? 0) then
     say "⚠️  GPU support not available. Some features will run in CPU mode." ;;;
     say "   To enable GPU support, install NVIDIA Container Toolkit:" ;;;
     say "   https://docs.nvidia.com/datacenter/cloud-native/container-toolkit/install-guide.html"
   else say "✅ GPU support detected") ;;;
  say "📁 Creating project structure..." ;;;
  or_exit (command (mkdir_p [["models"; "text_classifier"];
                             ["models"; "image_classifier"];
                             ["models"; "speech_to_text"]])) ;;;
  or_exit (command (mkdir_p [["test-data"]])) ;;;
  or_exit (command (mkdir_p [["monitoring"; "prometheus"];
                             ["monitoring"; "grafana"; "dashboards"];
                             ["monitoring"; "grafana"; "datasources"]])) ;;;
  or_exit (command (mkdir_p [["logs"]])) ;;;
  say "📥 Setting up model repository..." ;;;
  or_exit (command (redirect ["models"; "text_classifier"; "config.pbtxt"]
                      text_classifier_config)) ;;;
  or_exit (command (redirect ["models"; "image_classifier"; "config.pbtxt"]
                      image_classifier_config)) ;;;
  or_exit (command (redirect ["monitoring"; "prometheus.yml"] prometheus_config)) ;;;
  say "🧪 Creating test data..." ;;;
  or_exit (command (redirect ["test-data"; "sample.txt"]
                      ("This is a sample text for testing the AI inference pipeline"
                       +:+ nl))) ;;;
  python3_or_warn h sample_image_program
    "⚠️  Could not create sample image (PIL not available)" ;;;
  or_exit (command (redirect [".env"] environment_file)) ;;;
  chmod_scripts_or_true ;;;
  say "✅ Setup complete!" ;;;
  say "" ;;;
  say "Next steps:" ;;;
  say "1. Start the system: docker-compose up -d" ;;;
  say "2. Wait for services to initialize (2-3 minutes)" ;;;
  say "3. Test the system: ./scripts/test-system.sh" ;;;
  say "4. View monitoring: http://localhost:3000 (admin/admin)" ;;;
  say "" ;;;
  say "For GPU-accelerated inference, ensure NVIDIA Container Toolkit is installed.".

(** *** make *)

(** A rule of the Makefile: its target, its prerequisites, and the lines of
    its recipe, each a command with a status. *)
Record rule : Type := Rule {
  target : string;
  prerequisites : list string;
  recipe : list (Fs nat)
}.

(** Whether something, file or directory, is at [p]. *)
Definition present (s : file_system) (p : path) : bool :=
  match s p with
  | Some _ => true
  | None => false
  end.

(** A script run as a command: its exit status. *)
Definition run_script (script : Fs unit) : Fs nat :=
  fun s =>
    match script s with
    | (Returned _, s', out) => (Returned 0, s', out)
    | (Exited status, s', out) => (Returned status, s', out)
    | (Unfinished, s', out) => (Unfinished, s', out)
    end.

(** The lines of a recipe, one after the other; make stops with status 2 at
    the first line that fails. *)
Fixpoint run_recipe (commands : list (Fs nat)) : Fs unit :=
  match commands with
  | [] => fs_ret tt
  | c :: commands' =>
      status <- c ;;
      if status =? 0 then run_recipe commands' else fs_exit 2
  end.

(** [make goal]: the prerequisites are remade first, in order.  The recipe
    of the goal is run when the goal is phony, when nothing is at its path,
    or when a prerequisite was remade; times of modification are not kept.
    The result tells whether the recipe was run.  [fuel] bounds the depth
    of the prerequisites. *)
Fixpoint make (fuel : nat) (rules : list rule) (phony : list string) (goal : string)
    : Fs bool :=
  match fuel with
  | 0 => fun s => (Unfinished, s, [])
  | S fuel' =>
      match List.find (fun r => String.eqb (target r) goal) rules with
      | None =>
          s <- files ;;
          if present s [goal] then fs_ret false else fs_exit 2
      | Some r =>
          remade <-
            (fix remake_all (goals : list string) : Fs bool :=
               match goals with
               | [] => fs_ret false
               | g :: goals' =>
                   first <- make fuel' rules phony g ;;
                   others <- remake_all goals' ;;
                   fs_ret (first || others)
               end) (prerequisites r) ;;
          s <- files ;;
          if existsb (String.eqb goal) phony || negb (present s [goal]) || remade
          then run_recipe (recipe r) ;;; fs_ret true
          else fs_ret false
      end
  end.

(** *** The Makefile: the install target and what it needs *)

(** [@echo line] *)
Definition echo_line (line : string) : Fs nat := say line ;;; fs_ret 0.

Definition PHONY : list string :=
  ["help"; "setup"; "install"; "validate"; "start"; "stop"; "restart"; "logs";
   "test"; "test-quick"; "test-load"; "clean"; "gpu-test"; "docs"].

Definition install_rule : rule :=
  {| target := "install";
     prerequisites := ["validate"; "setup"; "models"];
     recipe := [echo_line "✅ Installation complete!";
                echo_line "💡 Next steps:";
                echo_line "   make start     - Start the system";
                echo_line "   make test      - Run tests"] |}.

Definition validate_rule (h : host) : rule :=
  {| target := "validate";
     prerequisites := [];
     recipe := [echo_line "🔍 Validating system prerequisites...";
                command (chmod_x ["scripts"; "validate-system.sh"]);
                (fun s =>
                   match validate_system h s with
                   | (status, s', printed) => (Returned status, s', printed)
                   end)] |}.

Definition setup_rule (h : host) : rule :=
  {| target := "setup";
     prerequisites := [];
     recipe := [echo_line "📁 Setting up project structure...";
                command (chmod_x ["scripts"; "setup.sh"]);
                run_script (setup h)] |}.

Definition models_rule (h : host) : rule :=
  {| target := "models";
     prerequisites := [];
     recipe := [echo_line "📥 Downloading AI models...";
                command (chmod_x ["scripts"; "download-models.sh"]);
                run_script (download_models (host_tools h))] |}.

Definition makefile (h : host) : list rule :=
  [install_rule; validate_rule h; setup_rule h; models_rule h].

(** [make install] *)
Definition make_install (rules : list rule) : Fs bool := make 2 rules PHONY "install".

(** The Makefile with another recipe for one target. *)
Definition with_recipe (goal : string) (commands : list (Fs nat)) (rules : list rule)
    : list rule :=
  map (fun r =>
         if String.eqb (target r) goal
         then {| target := target r; prerequisites := prerequisites r; recipe := commands |}
         else r)
      rules.

(** *** What is said of a run *)

(** From files that satisfy [pre], the command ends with files that satisfy
    [post] when it returns, and with a status other than 0 when it makes the
    shell exit. *)
Definition ends {A} (pre : file_system -> Prop) (c : Fs A) (post : file_system -> Prop)
    : Prop :=
  forall s r s' out,
    pre s -> c s = (r, s', out) ->
    match r with
    | Returned _ => post s'
    | Exited status => status <> 0
    | Unfinished => True
    end.

(** A directory named models is there. *)
Definition has_models (s : file_system) : Prop := s ["models"] = Some Dir.

(** The programs given to [python3 -c] do not remove that directory. *)
Definition keeps_models (h : host) : Prop :=
  forall program s,
    has_models s -> has_models (snd (fst (python3 (host_tools h) program s))).

(** *** Examples *)

(** A host with Docker and no Python. *)
Definition docker_host : host :=
  {| host_tools := {| python3 := fun _ s => (1, s, []); find_models := fun _ => [] |};
     docker_installed := true;
     docker_compose_installed := true;
     docker_compose_version := 0;
     docker_run_gpu := 1;
     validate_system := fun s => (0, s, []) |}.

(** A checkout: the three scripts are there. *)
Definition checkout : file_system :=
  fun p =>
    if path_eqb p ["scripts"] then Some Dir
    else if path_eqb p ["scripts"; "validate-system.sh"]
            || path_eqb p ["scripts"; "setup.sh"]
            || path_eqb p ["scripts"; "download-models.sh"]
         then Some (File EmptyString)
         else None.

End Installation.

(* ===================================================================== *)
(** ** Facts about the coordinator                                         *)
(* ===================================================================== *)

Module CoordinatorFacts.
Import Coordinator.
Local Open Scope py_scope.

(** Rebuilding an agent from its own fields changes nothing. *)
Lemma with_model_metadata_same self :
  with_model_metadata self (model_metadata self) = self.
Proof. now destruct self. Qed.

(** The five ways [route_inference] can go. *)
Lemma route_inference_cases w request self :
  route_inference w request self =
    if negb (dict_contains (model_metadata self) (model_name request)) then
      (inl (HTTPException 404 ("Model " +:+ model_name request +:+ " not found")),
       self, [])
    else
      match prepare_inputs w (inputs request) [] with
      | inl e =>
          (inl (HTTPException 500 ("Inference failed: " +:+ err_str e)),
           self, [LogErrorInference e])
      | inr tensors =>
          let sent := Request (url (client self)) (Infer (model_name request) tensors) in
          match infer (server_at w (url (client self))) (model_name request) tensors with
          | inl e =>
              (inl (HTTPException 500 ("Inference failed: " +:+ err_str e)),
               self, [sent; LogErrorInference e])
          | inr result =>
              match process_results request (requested_batch_size request) result with
              | inl e =>
                  (inl (HTTPException 500 ("Inference failed: " +:+ err_str e)),
                   self, [sent; LogErrorInference e])
              | inr response => (inr response, self, [sent])
              end
          end
      end.
Proof.
  unfold route_inference, bind, get_self, try_except, client_call, lift, emit, raise.
  cbn.
  destruct (dict_contains (model_metadata self) (model_name request)); cbn;
    [ | reflexivity ].
  destruct (prepare_inputs w (inputs request) []) as [e | tensors]; cbn;
    [ reflexivity | ].
  destruct (infer _ _ _) as [e | result]; cbn; [ reflexivity | ].
  destruct (process_results _ _ _) as [e | response]; reflexivity.
Qed.

Lemma requests_app t t' : requests (t ++ t') = requests t ++ requests t'.
Proof.
  induction t as [ | ev t IH ]; [ reflexivity | ].
  destruct ev; cbn; now rewrite IH.
Qed.

Lemma discover_model_step w m self :
  discover_model w m self =
    match get_model_metadata (server_at w (url (client self))) (name m) with
    | inl e => (inl e, self, [Request (url (client self)) (GetModelMetadata (name m))])
    | inr metadata =>
        (inr tt,
         with_model_metadata self
           (dict_setitem (model_metadata self) (name m)
              {| info_inputs := reply_inputs metadata;
                 info_outputs := reply_outputs metadata;
                 info_platform := reply_platform metadata |}),
         [Request (url (client self)) (GetModelMetadata (name m))])
    end.
Proof.
  unfold discover_model, client_call, bind, get_self, emit, lift, set_model_metadata.
  cbn. now destruct (get_model_metadata _ _).
Qed.

(** The loop of [initialize] stores what [discover] computes, raises what
    stopped it, and talks to the client's endpoint only. *)
Lemma discovery_loop w models : forall self,
  exists t,
    for_each models (discover_model w) self
    = (match snd (discover (server_at w (url (client self))) models (model_metadata self)) with
       | None => inr tt
       | Some e => inl e
       end,
       with_model_metadata self
         (fst (discover (server_at w (url (client self))) models (model_metadata self))),
       t)
    /\ Forall (fun rq => fst rq = url (client self)) (requests t).
Proof.
  induction models as [ | m models IH ]; intros self.
  - exists []. cbn. rewrite with_model_metadata_same. split; [ reflexivity | constructor ].
  - cbn [for_each discover]. unfold bind at 1. rewrite discover_model_step.
    destruct (get_model_metadata (server_at w (url (client self))) (name m))
      as [e | metadata].
    + eexists. cbn. rewrite with_model_metadata_same. split; [ reflexivity | ].
      cbn. repeat constructor.
    + destruct (IH (with_model_metadata self
                      (dict_setitem (model_metadata self) (name m)
                         {| info_inputs := reply_inputs metadata;
                            info_outputs := reply_outputs metadata;
                            info_platform := reply_platform metadata |})))
        as (t & Heq & Hreq).
      cbn in Heq, Hreq. rewrite Heq. eexists. split; [ reflexivity | ].
      cbn. constructor; [ reflexivity | exact Hreq ].
Qed.

(** [initialize] never raises; it leaves the catalogue discovery had
    filled when it stopped, and every request it sent went to the client's
    endpoint. *)
Lemma initialize_outcome w self :
  exists t,
    initialize w self
    = (inr tt,
       with_model_metadata self
         (catalogue_after (server_at w (url (client self))) (model_metadata self)),
       t)
    /\ Forall (fun rq => fst rq = url (client self)) (requests t).
Proof.
  unfold initialize, try_except.
  unfold bind at 1. unfold client_call at 1.
  unfold bind at 1. unfold bind at 1. unfold get_self at 1. cbn.
  unfold catalogue_after.
  destruct (get_model_repository_index (server_at w (url (client self))))
    as [e | models]; cbn.
  - eexists. rewrite with_model_metadata_same. split; [ reflexivity | ].
    cbn. repeat constructor.
  - unfold bind at 1.
    destruct (discovery_loop w models self) as (t & Heq & Hreq).
    rewrite Heq.
    destruct (snd (discover _ models _)) as [e | ]; cbn;
      (eexists; split; [ reflexivity | ]);
      cbn [requests]; rewrite ?requests_app; cbn; rewrite ?app_nil_r;
      (constructor; [ reflexivity | exact Hreq ]).
Qed.

(** The agent after startup: the global instance with the catalogue that
    discovery against its own endpoint produced. *)
Lemma started_agent w0 :
  started w0 =
    with_model_metadata coordinator
      (catalogue_after (server_at w0 "http://triton-server:8000") []).
Proof.
  unfold started, App.startup.
  destruct (initialize_outcome w0 coordinator) as (t & Heq & _).
  now rewrite Heq.
Qed.

(** No handler changes the agent. *)
Lemma handle_keeps_agent w rq self : snd (fst (handle w rq self)) = self.
Proof.
  destruct rq as [request | | ]; unfold handle; [ | reflexivity | reflexivity ].
  unfold App.infer. rewrite route_inference_cases.
  destruct (negb _); [ reflexivity | ].
  destruct (prepare_inputs _ _ _); [ reflexivity | ]. cbn.
  destruct (infer _ _ _); [ reflexivity | ].
  now destruct (process_results _ _ _).
Qed.

Lemma serve_keeps_agent rqs : forall self, snd (fst (serve self rqs)) = self.
Proof.
  induction rqs as [ | [w rq] rqs IH ]; intros self; [ reflexivity | ].
  cbn [serve].
  pose proof (handle_keeps_agent w rq self) as Hh.
  destruct (handle w rq self) as [[r self'] t]. cbn in Hh. subst self'.
  specialize (IH self).
  destruct (serve self rqs) as [[rs self''] t']. exact IH.
Qed.

(** The replies of a run are those of the handlers on the unchanged
    agent. *)
Lemma serve_replies rqs : forall self,
  fst (fst (serve self rqs)) = map (fun wr => fst (fst (handle (fst wr) (snd wr) self))) rqs.
Proof.
  induction rqs as [ | [w rq] rqs IH ]; intros self; [ reflexivity | ].
  cbn [serve map fst snd].
  pose proof (handle_keeps_agent w rq self) as Hh.
  destruct (handle w rq self) as [[r self'] t]. cbn in Hh. subst self'.
  specialize (IH self).
  destruct (serve self rqs) as [[rs self''] t']. cbn in *. now rewrite IH.
Qed.

(** The only requests a handler sends are inference calls. *)
Lemma handle_sends_infer_only w rq self :
  Forall (fun sent => exists m tensors, snd sent = Infer m tensors)
    (requests (snd (handle w rq self))).
Proof.
  destruct rq as [request | | ]; unfold handle; [ | constructor | constructor ].
  unfold App.infer. rewrite route_inference_cases.
  destruct (negb _); [ constructor | ].
  destruct (prepare_inputs _ _ _); [ constructor | ]. cbn zeta.
  destruct (infer _ _ _); [ repeat constructor; cbn; eauto | ].
  destruct (process_results _ _ _); repeat constructor; cbn; eauto.
Qed.

Lemma serve_sends_infer_only rqs : forall self,
  Forall (fun sent => exists m tensors, snd sent = Infer m tensors)
    (requests (snd (serve self rqs))).
Proof.
  induction rqs as [ | [w rq] rqs IH ]; intros self; [ constructor | ].
  cbn [serve].
  pose proof (handle_sends_infer_only w rq self) as Hh.
  destruct (handle w rq self) as [[r self'] t].
  specialize (IH self').
  destruct (serve self' rqs) as [[rs self''] t'].
  cbn [snd] in *. rewrite requests_app. apply Forall_app. now split.
Qed.

(** *** The claims about the coordinator *)


(** C9.  /health answers {"status": "healthy", "agent":
    "inference-coordinator"} in every state of the agent and of the
    backends, changes nothing and sends no request: the status it reports
    does not depend on any target being reachable or any model being
    loaded. *)
Theorem health_is_unconditional (w : world) (self : Agent) :
  handle w GET_health self
    = (HealthReply [("status", "healthy"); ("agent", "inference-coordinator")],
       self, [])
  /\ dict_lookup [("status", "healthy"); ("agent", "inference-coordinator")] "status"
     = Some "healthy".
Proof. split; reflexivity. Qed.







(** C10, counterexample.  The second model of the repository index is not
    loaded, so its metadata call raises: the startup hook still returns, the
    error is only logged, and the catalogue is left with the first model. *)
Lemma failed_discovery_keeps_earlier_models :
  App.startup partly_loaded coordinator
    = (inr tt,
       started partly_loaded,
       [Request "http://triton-server:8000" GetModelRepositoryIndex;
        Request "http://triton-server:8000" (GetModelMetadata "text_classifier");
        Request "http://triton-server:8000" (GetModelMetadata "image_classifier");
        LogErrorInitialize (PyError "InferenceServerException" "model not ready")])
  /\ dict_keys (model_metadata (started partly_loaded)) = ["text_classifier"].
Proof. split; vm_compute; reflexivity. Qed.

(** C10, as the coordinator has it.  Discovery runs in the startup hook and
    nowhere else.  The hook returns normally whatever discovery raised and
    leaves the catalogue with the models stored before the failure, none when
    the repository index itself could not be read.  After it, no handler
    changes the agent or asks a backend for its index or for metadata: every
    /models answer lists the names of the startup catalogue, and /infer
    answers 404 for every name outside it, whatever the backends serve by
    then. *)
Theorem discovery_only_at_startup
    (w0 : world) (rqs : list (world * http_request)) :
  let s0 := server_at w0 "http://triton-server:8000" in
  let self := started w0 in
  (exists t, App.startup w0 coordinator = (inr tt, self, t))
  /\ model_metadata self = catalogue_after s0 []
  /\ (forall e, get_model_repository_index s0 = inl e -> model_metadata self = [])
  /\ snd (fst (serve self rqs)) = self
  /\ Forall (fun sent => exists m tensors, snd sent = Infer m tensors)
       (requests (snd (serve self rqs)))
  /\ Forall2
       (fun wr reply =>
          match snd wr with
          | GET_models =>
              reply = ModelsReply [("models", dict_keys (model_metadata self))]
          | POST_infer request =>
              dict_contains (model_metadata self) (model_name request) = false ->
              reply = ErrorReply
                        (HTTPException 404
                           ("Model " +:+ model_name request +:+ " not found"))
          | GET_health => True
          end)
       rqs (fst (fst (serve self rqs))).
Proof.
  cbn zeta. split; [ | split; [ | split; [ | split; [ | split ] ] ] ].
  - unfold started, App.startup.
    destruct (initialize_outcome w0 coordinator) as (t & Heq & _).
    rewrite Heq. now exists t.
  - now rewrite started_agent.
  - intros e He. rewrite started_agent. cbn. unfold catalogue_after. now rewrite He.
  - apply serve_keeps_agent.
  - apply serve_sends_infer_only.
  - rewrite serve_replies.
    induction rqs as [ | [w rq] rqs IH ]; cbn [map]; constructor; [ | exact IH ].
    cbn [fst snd]. destruct rq as [request | | ]; [ | reflexivity | exact I ].
    intros Hunknown. unfold handle, App.infer.
    now rewrite route_inference_cases, Hunknown.
Qed.

End CoordinatorFacts.

(* ===================================================================== *)
(** ** Facts about the placement engine                                    *)
(* ===================================================================== *)

Module EngineFacts.
Import Engine.

(** *** Target Registry: outcomes of other targets do not matter *)





(** *** Target Registry: the health transitions on one target *)











(** *** Stable insertion sort *)

Section Sorting.
Context {A : Type} (leb : A -> A -> bool).
Hypothesis leb_total : forall a b, leb a b = true \/ leb b a = true.
Hypothesis leb_trans :
  forall a b c, leb a b = true -> leb b c = true -> leb a c = true.


Lemma insert_by_permutation x l : Permutation (insert_by leb x l) (x :: l).
Proof.
  induction l as [ | y l IH ]; cbn; [ reflexivity | ].
  destruct (leb x y); [ reflexivity | ].
  rewrite IH. apply perm_swap.
Qed.

Lemma sort_by_permutation l : Permutation (sort_by leb l) l.
Proof.
  induction l as [ | x l IH ]; cbn; [ reflexivity | ].
  now rewrite insert_by_permutation, IH.
Qed.





End Sorting.

(** *** The order of the policy *)




(** *** The candidates are the admissible rules *)


Lemma candidates_from_placed st s rules : forall i c,
  In c (candidates_from st s i rules) ->
  registry st !! target (rule c) = Some (placed_on c)
  /\ admissible st s (rule c) = true
  /\ (i <= position c)%nat.
Proof.
  induction rules as [ | r rules IH ]; intros i c; cbn; [ intros [] | ].
  assert (Hrest : In c (candidates_from st s (S i) rules) ->
                  registry st !! target (rule c) = Some (placed_on c)
                  /\ admissible st s (rule c) = true /\ (i <= position c)%nat).
  { intros Hin. destruct (IH _ _ Hin) as (? & ? & ?). repeat split; auto; lia. }
  destruct (registry st !! target r) as [t | ] eqn:Ht; [ | exact Hrest ].
  destruct (admissible st s r) eqn:Hadm; [ | exact Hrest ].
  intros [<- | Hin]; [ cbn; auto | auto ].
Qed.

Lemma candidates_from_positions st s rules : forall i,
  List.NoDup (map position (candidates_from st s i rules)).
Proof.
  induction rules as [ | r rules IH ]; intros i; cbn; [ constructor | ].
  destruct (registry st !! target r) as [t | ]; [ | apply IH ].
  destruct (admissible st s r); [ | apply IH ].
  cbn. constructor; [ | apply IH ].
  intros Hin. apply in_map_iff in Hin as (c & Hpos & Hc).
  apply candidates_from_placed in Hc as (_ & _ & Hle). cbn in Hpos. lia.
Qed.


Lemma by_policy_permutation st s : Permutation (by_policy st s) (candidates st s).
Proof. apply sort_by_permutation. Qed.

(** *** The cost preference *)


Lemma cheapest_in l c : cheapest l = Some c -> In c l.
Proof.
  revert c. induction l as [ | x l IH ]; intros c; cbn; [ discriminate | ].
  destruct (cheapest l) as [c' | ].
  - destruct (cost_per_hour (placed_on c') <? cost_per_hour (placed_on x));
      intros [= <-]; auto.
  - intros [= <-]. auto.
Qed.

(** What [prefer_cheaper] can do: nothing, or move the cheapest of the
    others in front of a top that costs more than every other, provided
    its latency is under the threshold. *)
Lemma prefer_cheaper_cases g l :
  prefer_cheaper g l = l
  \/ exists top others c,
       l = top :: others
       /\ cost_optimization g = true
       /\ List.Forall (fun o => cost_per_hour (placed_on o) < cost_per_hour (placed_on top))
            others
       /\ cheapest others = Some c
       /\ smoothed_latency (placed_on c) < latency_threshold g
       /\ prefer_cheaper g l = c :: top :: drop_position (position c) others.
Proof.
  destruct l as [ | top [ | o others ] ]; [ now left | now left | ].
  unfold prefer_cheaper.
  destruct (cost_optimization g) eqn:Hon; [ | now left ].
  cbn [andb].
  destruct (forallb _ (o :: others)) eqn:Hall; [ | now left ].
  destruct (cheapest (o :: others)) as [c | ] eqn:Hc; [ | now left ].
  destruct (Z.ltb_spec (smoothed_latency (placed_on c)) (latency_threshold g));
    [ | now left ].
  right. exists top, (o :: others), c. repeat split; auto.
  apply List.Forall_forall. intros x Hx.
  rewrite forallb_forall in Hall. specialize (Hall x Hx). lia.
Qed.

Lemma drop_position_permutation c l :
  List.NoDup (map position l) -> In c l ->
  Permutation l (c :: drop_position (position c) l).
Proof.
  induction l as [ | x l IH ]; intros Hnd Hin; [ destruct Hin | ].
  cbn in Hnd. inversion Hnd as [ | ? ? Hnotin Hnd' ]; subst.
  cbn [drop_position List.filter].
  destruct Hin as [-> | Hin].
  - rewrite Nat.eqb_refl. cbn [negb]. constructor.
    fold (drop_position (position c) l).
    unfold drop_position. rewrite List.forallb_filter_id; [ reflexivity | ].
    apply forallb_forall. intros y Hy.
    destruct (Nat.eqb_spec (position y) (position c)) as [Heq | ]; [ | reflexivity ].
    exfalso. apply Hnotin. rewrite <- Heq. now apply in_map.
  - destruct (Nat.eqb_spec (position x) (position c)) as [Heq | Hne]; cbn [negb].
    + exfalso. apply Hnotin. rewrite Heq. now apply in_map.
    + fold (drop_position (position c) l).
      rewrite (IH Hnd' Hin) at 1. apply perm_swap.
Qed.

Lemma prefer_cheaper_permutation g l :
  List.NoDup (map position l) -> Permutation (prefer_cheaper g l) l.
Proof.
  intros Hnd.
  destruct (prefer_cheaper_cases g l)
    as [-> | (top & others & c & -> & _ & _ & Hc & _ & ->)]; [ reflexivity | ].
  cbn in Hnd. inversion Hnd as [ | ? ? _ Hnd' ]; subst.
  rewrite perm_swap. constructor. symmetry.
  apply drop_position_permutation; [ exact Hnd' | now apply cheapest_in ].
Qed.

(** *** Marking a target Unreachable *)







(** *** The claims about ranking *)



Lemma by_policy_positions st s : List.NoDup (map position (by_policy st s)).
Proof.
  eapply Permutation_NoDup;
    [ apply Permutation_map; symmetry; apply by_policy_permutation | ].
  apply candidates_from_positions.
Qed.




(** C2.  Scenario A: the service "text_classifier" has the rules [(edge,
    priority 1, cpu < 70%), (local, priority 2)] and the edge target reports
    80% CPU.  Whatever else the state holds, as long as the local target is
    known to the registry, not Unreachable, and listed by the catalogue for
    the service, [rank] returns the one-element sequence [local]. *)
Theorem scenario_A_ranks_local_only
    (st : State) (p : RequestProfile) (edge_target local_target : Target) :
  policy st !! "text_classifier" = Some scenario_A_rules ->
  registry st !! "edge" = Some edge_target ->
  snapshot_cpu_utilization edge_target = 80 ->
  registry st !! "local" = Some local_target ->
  health local_target <> Unreachable ->
  supports st "local" "text_classifier" = true ->
  rank st "text_classifier" p = inr ["local"].
Proof.
  intros Hpolicy Hedge Hcpu Hlocal Hhealth Hsupports.
  assert (Hedge_out :
    admissible st "text_classifier" (MkRule "edge" 1
      (MkRequirements None (Some (Gi 4)) (Some 2))
      [ MkCondition cpu_utilization Lt 70 ] None) = false).
  { unfold admissible. cbn [target conditions]. rewrite Hedge.
    cbn. unfold holds. cbn. rewrite Hcpu. cbn. now rewrite !andb_false_r. }
  assert (Hlocal_in :
    admissible st "text_classifier" (MkRule "local" 2
      (MkRequirements None (Some (Gi 2)) (Some 1)) [] None) = true).
  { unfold admissible. cbn [target conditions]. rewrite Hlocal, Hsupports.
    unfold within_cost. cbn [cost_threshold forallb].
    destruct (health local_target); [ | | contradiction ];
      now destruct (cost_optimization (global st)). }
  unfold rank, by_policy, candidates, rulesFor. rewrite Hpolicy.
  cbn [default from_option id]. unfold scenario_A_rules.
  cbn [candidates_from target].
  rewrite Hedge, Hedge_out. rewrite Hlocal, Hlocal_in. reflexivity.
Qed.

(** The theorem on the state of Scenario A. *)
Lemma scenario_A_ranks_local_only_witness :
  rank scenario_A_state "text_classifier" no_needs = inr ["local"].
Proof.
  refine (scenario_A_ranks_local_only scenario_A_state no_needs
            (example_target "edge" tier_edge 0 80 0 15 10) local_host
            eq_refl eq_refl eq_refl eq_refl _ eq_refl).
  discriminate.
Defined.




End EngineFacts.

(* ===================================================================== *)
(** ** More about the coordinator: replies, inputs, outputs, discovery     *)
(* ===================================================================== *)

Module CoordinatorMore.
Import Coordinator.
Import CoordinatorFacts.
Import Answers.
Local Open Scope py_scope.

(** *** Python dictionaries *)

Lemma dict_lookup_setitem_same {V} (d : dict V) k v :
  dict_lookup (dict_setitem d k v) k = Some v.
Proof.
  induction d as [ | [k' v'] d IH ]; cbn.
  - now rewrite String.eqb_refl.
  - destruct (String.eqb_spec k' k) as [-> | Hne]; cbn.
    + now rewrite String.eqb_refl.
    + destruct (String.eqb_spec k' k); [ contradiction | exact IH ].
Qed.

Lemma dict_lookup_setitem_other {V} (d : dict V) k v k0 :
  k0 <> k -> dict_lookup (dict_setitem d k v) k0 = dict_lookup d k0.
Proof.
  intros Hne. induction d as [ | [k' v'] d IH ]; cbn.
  - destruct (String.eqb_spec k k0); [ congruence | reflexivity ].
  - destruct (String.eqb_spec k' k) as [-> | Hk]; cbn.
    + destruct (String.eqb_spec k k0); [ congruence | reflexivity ].
    + destruct (String.eqb_spec k' k0); [ reflexivity | exact IH ].
Qed.

Lemma dict_keys_setitem {V} (d : dict V) k v :
  dict_keys (dict_setitem d k v)
    = if dict_contains d k then dict_keys d else dict_keys d ++ [k].
Proof.
  unfold dict_contains, dict_keys.
  induction d as [ | [k' v'] d IH ]; cbn; [ reflexivity | ].
  destruct (String.eqb_spec k' k) as [-> | Hk]; cbn; [ reflexivity | ].
  rewrite IH. now destruct (dict_lookup d k).
Qed.

Lemma dict_contains_keys {V} (d : dict V) k :
  dict_contains d k = true <-> In k (dict_keys d).
Proof.
  unfold dict_contains, dict_keys.
  induction d as [ | [k' v'] d IH ]; cbn; [ split; [ discriminate | intros [] ] | ].
  destruct (String.eqb_spec k' k) as [-> | Hk].
  - split; auto.
  - rewrite IH. split; [ auto | intros [? | ?]; [ contradiction | assumption ] ].
Qed.

Lemma dict_keys_setitem_nodup {V} (d : dict V) k v :
  List.NoDup (dict_keys d) -> List.NoDup (dict_keys (dict_setitem d k v)).
Proof.
  intros Hnd. rewrite dict_keys_setitem.
  destruct (dict_contains d k) eqn:Hc; [ exact Hnd | ].
  apply List.NoDup_app; [ exact Hnd | repeat constructor; intros [] | ].
  intros x Hx [<- | []].
  apply dict_contains_keys in Hx. congruence.
Qed.

(** *** What /infer answers *)

(** X1.  /infer answers an error in two ways only: HTTP 404, exactly when the
    model is outside the catalogue, with nothing sent and nothing logged;
    HTTP 500 for a model of the catalogue, with the detail "Inference
    failed: " followed by the text of some error, that error being the last
    line logged.  A normal answer is for a model of the catalogue and names
    it. *)
Theorem infer_answers_404_or_500
    (w : world) (request : InferenceRequest) (self : Agent) :
  match App.infer w request self with
  | (inl exc, _, t) =>
      (status_code exc = 404%nat
       /\ dict_contains (model_metadata self) (model_name request) = false
       /\ t = [])
      \/ (status_code exc = 500%nat
          /\ dict_contains (model_metadata self) (model_name request) = true
          /\ exists e t',
               detail exc = "Inference failed: " +:+ err_str e
               /\ t = t' ++ [LogErrorInference e])
  | (inr response, _, _) =>
      dict_contains (model_metadata self) (model_name request) = true
      /\ model response = model_name request
  end.
Proof.
  unfold App.infer. rewrite route_inference_cases.
  destruct (dict_contains (model_metadata self) (model_name request)); cbn [negb].
  2:{ left. repeat split. }
  destruct (prepare_inputs w (inputs request) []) as [e | tensors].
  { right. repeat split. exists e, []. now split. }
  cbn zeta.
  destruct (infer _ _ _) as [e | result].
  { right. repeat split. exists e, [Request (url (client self))
                                      (Infer (model_name request) tensors)].
    now split. }
  destruct (process_results request (requested_batch_size request) result)
    as [e | response] eqn:Hp.
  { right. repeat split. exists e, [Request (url (client self))
                                      (Infer (model_name request) tensors)].
    now split. }
  split; [ reflexivity | ].
  unfold process_results, and_then in Hp.
  destruct (subscript _ _); [ discriminate | ].
  destruct (iterate _); [ discriminate | ].
  destruct (collect_outputs _ _ _); [ discriminate | ].
  destruct (method_get _ _ _); [ discriminate | ].
  now injection Hp as <-.
Qed.

(** X2.  The stored capabilities are never consulted: the answer of
    [route_inference] and the requests it sends depend on the catalogue only
    through whether it holds the model's name.  Shapes, datatypes and the
    number of inputs are not checked against what discovery stored. *)
Theorem route_inference_ignores_stored_metadata
    (w : world) (request : InferenceRequest) (self : Agent)
    (d1 d2 : dict model_info) :
  dict_contains d1 (model_name request) = dict_contains d2 (model_name request) ->
  fst (fst (route_inference w request (with_model_metadata self d1)))
    = fst (fst (route_inference w request (with_model_metadata self d2)))
  /\ snd (route_inference w request (with_model_metadata self d1))
     = snd (route_inference w request (with_model_metadata self d2)).
Proof.
  intros Hsame. rewrite !route_inference_cases.
  cbn [with_model_metadata model_metadata client]. rewrite Hsame.
  destruct (negb _); [ now split | ].
  destruct (prepare_inputs w (inputs request) []); [ now split | ]. cbn zeta.
  destruct (infer _ _ _); [ now split | ].
  destruct (process_results _ _ _); now split.
Qed.

Lemma route_inference_ignores_stored_metadata_witness :
  fst (fst (route_inference all_serving text_request
              (with_model_metadata coordinator
                 [("text_classifier", ModelInfo VNone VNone VNone)])))
    = fst (fst (route_inference all_serving text_request
                  (with_model_metadata coordinator
                     [("text_classifier",
                       ModelInfo (VList [VStr "OTHER"]) (VList []) (VStr "onnx"))]))).
Proof.
  exact (proj1 (route_inference_ignores_stored_metadata all_serving text_request
                  coordinator
                  [("text_classifier", ModelInfo VNone VNone VNone)]
                  [("text_classifier",
                    ModelInfo (VList [VStr "OTHER"]) (VList []) (VStr "onnx"))]
                  eq_refl)).
Defined.

(** *** Converting the inputs *)

Lemma prepare_inputs_acc w items : forall acc,
  prepare_inputs w items acc
    = match prepare_inputs w items [] with
      | inl e => inl e
      | inr tensors => inr (acc ++ tensors)
      end.
Proof.
  induction items as [ | [n data] items IH ]; intros acc; cbn.
  - now rewrite app_nil_r.
  - unfold and_then. destruct (prepare_input w n data) as [e | t]; [ reflexivity | ].
    rewrite IH. rewrite (IH [t]).
    destruct (prepare_inputs w items []); [ reflexivity | ].
    now rewrite <- app_assoc.
Qed.

Lemma prepare_inputs_app w a b : forall acc,
  prepare_inputs w (a ++ b) acc
    = match prepare_inputs w a acc with
      | inl e => inl e
      | inr tensors => prepare_inputs w b tensors
      end.
Proof.
  induction a as [ | [n data] a IH ]; intros acc; [ reflexivity | ].
  cbn. unfold and_then. destruct (prepare_input w n data) as [e | t]; [ reflexivity | ].
  apply IH.
Qed.

(** X3.  An input that lacks one of the keys "shape", "datatype", "data" makes
    /infer answer HTTP 500, not a client error: for a model of the catalogue,
    when the inputs before it convert, the detail is "Inference failed: "
    followed by the quoted name of the first missing key, the error is
    logged, and no request is sent to Triton. *)
Theorem input_without_key_is_500_unsent
    (w : world) (request : InferenceRequest) (self : Agent)
    (converted : list (string * value)) (tensors : list InferInput)
    (input : string) (fields : dict value) (later : list (string * value))
    (missing : string) :
  dict_contains (model_metadata self) (model_name request) = true ->
  inputs request = converted ++ (input, VDict fields) :: later ->
  prepare_inputs w converted [] = inr tensors ->
  List.find (fun k => negb (dict_contains fields k)) ["shape"; "datatype"; "data"]
    = Some missing ->
  App.infer w request self
    = (inl (HTTPException 500 ("Inference failed: " +:+ ("'" +:+ missing +:+ "'"))),
       self,
       [LogErrorInference (KeyError missing)]).
Proof.
  intros Hknown Hinputs Hconverted Hmissing.
  assert (Hraise : prepare_inputs w (inputs request) [] = inl (KeyError missing)).
  { rewrite Hinputs, prepare_inputs_app, Hconverted. cbn [prepare_inputs].
    unfold and_then, prepare_input, and_then, subscript.
    cbn [List.find] in Hmissing. unfold dict_contains in Hmissing.
    destruct (dict_lookup fields "shape"); cbn [negb] in Hmissing;
      [ | now injection Hmissing as <- ].
    destruct (dict_lookup fields "datatype"); cbn [negb] in Hmissing;
      [ | now injection Hmissing as <- ].
    destruct (dict_lookup fields "data"); cbn [negb] in Hmissing;
      [ discriminate | now injection Hmissing as <- ]. }
  unfold App.infer. now rewrite route_inference_cases, Hknown, Hraise.
Qed.

Lemma input_without_key_is_500_unsent_witness :
  App.infer all_serving untyped_request (started all_serving)
    = (inl (HTTPException 500 "Inference failed: 'datatype'"),
       started all_serving,
       [LogErrorInference (KeyError "datatype")]).
Proof.
  exact (input_without_key_is_500_unsent all_serving untyped_request
           (started all_serving) [] [] "INPUT"
           [("data", VList [VList [VNum (1 # 10)]]);
            ("shape", VList [VNum 1; VNum 1])]
           [] "datatype" eq_refl eq_refl eq_refl eq_refl).
Defined.

(** X4.  When the inputs convert, there is one tensor per input, in the
    order of the request's [inputs]: each is what [set_data_from_numpy]
    returns for a tensor with the input's name, shape and datatype and the
    input's data. *)
Theorem prepare_inputs_keeps_order
    (w : world) (items : list (string * value)) (tensors : list InferInput) :
  prepare_inputs w items [] = inr tensors ->
  Forall2
    (fun item t =>
       exists shape datatype payload,
         subscript (snd item) "shape" = inr shape
         /\ subscript (snd item) "datatype" = inr datatype
         /\ subscript (snd item) "data" = inr payload
         /\ set_data_from_numpy w (MkInferInput (fst item) shape datatype VNone) payload
            = inr t)
    items tensors.
Proof.
  revert tensors. induction items as [ | [n data] items IH ]; intros tensors.
  - cbn. intros [= <-]. constructor.
  - cbn [prepare_inputs]. unfold and_then at 1.
    destruct (prepare_input w n data) as [e | t] eqn:Ht; [ discriminate | ].
    rewrite prepare_inputs_acc.
    destruct (prepare_inputs w items []) as [e | ts]; [ discriminate | ].
    intros [= <-]. cbn [app]. constructor; [ | now apply IH ].
    unfold prepare_input, and_then in Ht. cbn [fst snd].
    destruct (subscript data "shape") as [ | shape ]; [ discriminate | ].
    destruct (subscript data "datatype") as [ | datatype ]; [ discriminate | ].
    destruct (subscript data "data") as [ | payload ]; [ discriminate | ].
    exists shape, datatype, payload. auto.
Qed.

Lemma prepare_inputs_keeps_order_witness :
  Forall2
    (fun item t =>
       exists shape datatype payload,
         subscript (snd item) "shape" = inr shape
         /\ subscript (snd item) "datatype" = inr datatype
         /\ subscript (snd item) "data" = inr payload
         /\ set_data_from_numpy all_serving
              (MkInferInput (fst item) shape datatype VNone) payload
            = inr t)
    (inputs text_request)
    [MkInferInput "INPUT" (VList [VNum 1; VNum 5]) (VStr "FP32")
       (VList [VList [VNum (1 # 10); VNum (2 # 10); VNum (3 # 10);
                      VNum (4 # 10); VNum (5 # 10)]])].
Proof.
  exact (prepare_inputs_keeps_order all_serving (inputs text_request) _ eq_refl).
Defined.

(** *** A successful answer *)



(** *** The outputs dictionary *)

Lemma key_eqb_string k n : key_eqb k (KStr n) = true <-> k = KStr n.
Proof.
  destruct k as [ | q | s ]; cbn; try (split; discriminate).
  destruct (String.eqb_spec s n); split; congruence.
Qed.

Lemma string_key_eqb n k : key_eqb (KStr n) k = true <-> k = KStr n.
Proof.
  destruct k as [ | q | s ]; cbn; try (split; discriminate).
  destruct (String.eqb_spec n s); split; congruence.
Qed.

Lemma outputs_lookup_setitem d k v n :
  outputs_lookup (outputs_setitem d k v) (KStr n)
    = if key_eqb k (KStr n) then Some v else outputs_lookup d (KStr n).
Proof.
  induction d as [ | [k' v'] d IH ]; cbn; [ reflexivity | ].
  destruct (key_eqb k' k) eqn:Hk'k; cbn.
  - destruct (key_eqb k (KStr n)) eqn:Hkn; [ reflexivity | ].
    destruct (key_eqb k' (KStr n)) eqn:Hk'n; [ | reflexivity ].
    apply key_eqb_string in Hk'n. subst k'.
    apply string_key_eqb in Hk'k. subst k. cbn in Hkn.
    now rewrite String.eqb_refl in Hkn.
  - rewrite IH.
    destruct (key_eqb k' (KStr n)) eqn:Hk'n; [ | reflexivity ].
    destruct (key_eqb k (KStr n)) eqn:Hkn; [ | reflexivity ].
    apply key_eqb_string in Hk'n, Hkn. subst k k'. cbn in Hk'k.
    now rewrite String.eqb_refl in Hk'k.
Qed.

Lemma outputs_setitem_length d k v :
  (length (outputs_setitem d k v) <= S (length d))%nat.
Proof.
  induction d as [ | [k' v'] d IH ]; cbn; [ lia | ].
  destruct (key_eqb k' k); cbn; lia.
Qed.

(** What the loop over the listed outputs keeps true: every string key
    holds the array [as_numpy] gives for that name. *)
Lemma collect_outputs_invariant result items : forall acc outs,
  (forall n a, outputs_lookup acc (KStr n) = Some a -> as_numpy result (VStr n) = inr a) ->
  collect_outputs result items acc = inr outs ->
  (forall n a, outputs_lookup outs (KStr n) = Some a -> as_numpy result (VStr n) = inr a)
  /\ (forall n, outputs_lookup acc (KStr n) <> None -> outputs_lookup outs (KStr n) <> None)
  /\ (forall item n, In item items -> subscript item "name" = inr (VStr n) ->
        outputs_lookup outs (KStr n) <> None)
  /\ (length outs <= length acc + length items)%nat.
Proof.
  induction items as [ | item items IH ]; intros acc outs Hacc.
  - cbn. intros [= <-].
    split; [ exact Hacc | ]. split; [ auto | ]. split; [ intros ? ? [] | lia ].
  - cbn [collect_outputs]. unfold and_then.
    destruct (subscript item "name") as [ | v ] eqn:Hname; [ discriminate | ].
    destruct (as_numpy result v) as [ | array ] eqn:Harray; [ discriminate | ].
    destruct (hash_key v) as [ | k ] eqn:Hkey; [ discriminate | ].
    intros Hrest.
    assert (Hacc' : forall n a,
              outputs_lookup (outputs_setitem acc k array) (KStr n) = Some a ->
              as_numpy result (VStr n) = inr a).
    { intros n a. rewrite outputs_lookup_setitem.
      destruct (key_eqb k (KStr n)) eqn:Hkn; [ | apply Hacc ].
      apply key_eqb_string in Hkn. subst k.
      destruct v; try discriminate. cbn in Hkey. injection Hkey as ->.
      intros [= <-]. exact Harray. }
    destruct (IH _ _ Hacc' Hrest) as (Hok & Hkeep & Hlisted & Hlen).
    split; [ exact Hok | split; [ | split ] ].
    + intros n Hn. apply Hkeep. rewrite outputs_lookup_setitem.
      now destruct (key_eqb k (KStr n)).
    + intros item' n [<- | Hin] Hn; [ | now apply (Hlisted item') ].
      apply Hkeep. rewrite outputs_lookup_setitem.
      rewrite Hn in Hname. injection Hname as <-. cbn in Hkey. injection Hkey as <-.
      cbn. now rewrite String.eqb_refl.
    + pose proof (outputs_setitem_length acc k array). cbn [length]. lia.
Qed.

(** X6.  In a successful answer, every output that Triton's response lists
    under a string name can be looked up under that name in [outputs], and
    what is found is the array [as_numpy] returns for the name; [outputs]
    has no more entries than the response lists. *)
Theorem outputs_hold_every_listed_array
    (request : InferenceRequest) (batch : value) (result : InferResult)
    (response : InferenceResponse) (items : list value) :
  process_results request batch result = inr response ->
  subscript (get_response result) "outputs" = inr (VList items) ->
  (forall item n,
      In item items -> subscript item "name" = inr (VStr n) ->
      exists array,
        as_numpy result (VStr n) = inr array
        /\ outputs_lookup (outputs response) (KStr n) = Some array)
  /\ (length (outputs response) <= length items)%nat.
Proof.
  intros Hp Hlisted. unfold process_results, and_then in Hp.
  rewrite Hlisted in Hp. cbn [iterate] in Hp.
  destruct (collect_outputs result items []) as [ | outs ] eqn:Houts; [ discriminate | ].
  destruct (method_get _ _ _); [ discriminate | ].
  injection Hp as <-. cbn [outputs].
  destruct (collect_outputs_invariant result items [] outs) as (Hok & _ & Hall & Hlen);
    [ intros n a; discriminate | exact Houts | ].
  split; [ | exact Hlen ].
  intros item n Hin Hn. specialize (Hall item n Hin Hn).
  destruct (outputs_lookup outs (KStr n)) as [array | ] eqn:Hfound; [ | contradiction ].
  exists array. split; [ now apply Hok | reflexivity ].
Qed.

Lemma outputs_hold_every_listed_array_witness :
  (forall item n,
      In item [VDict [("name", VStr "OUTPUT")]] ->
      subscript item "name" = inr (VStr n) ->
      exists array,
        as_numpy example_result (VStr n) = inr array
        /\ outputs_lookup [(KStr "OUTPUT", VList [VNum (8 # 10); VNum (2 # 10)])] (KStr n)
           = Some array)
  /\ (length [(KStr "OUTPUT", VList [VNum (8 # 10); VNum (2 # 10)])] <= 1)%nat.
Proof.
  exact (outputs_hold_every_listed_array text_request (VNum 1) example_result
           {| model := "text_classifier";
              outputs := [(KStr "OUTPUT", VList [VNum (8 # 10); VNum (2 # 10)])];
              metadata := {| execution_time_ms := VNum 0; batch_size := VNum 1 |} |}
           [VDict [("name", VStr "OUTPUT")]] eq_refl eq_refl).
Defined.

(** *** Discovery at startup *)

Lemma dict_contains_setitem {V} (d : dict V) k v n :
  dict_contains (dict_setitem d k v) n = true
  <-> dict_contains d n = true \/ n = k.
Proof.
  unfold dict_contains.
  destruct (String.eqb_spec n k) as [-> | Hne].
  - rewrite dict_lookup_setitem_same. split; auto.
  - rewrite dict_lookup_setitem_other by exact Hne.
    split; [ auto | intros [H | H]; [ exact H | contradiction ] ].
Qed.

Lemma discover_keys_nodup s models : forall d,
  List.NoDup (dict_keys d) -> List.NoDup (dict_keys (fst (discover s models d))).
Proof.
  induction models as [ | m models IH ]; intros d Hd; cbn; [ exact Hd | ].
  destruct (get_model_metadata s (name m)); [ exact Hd | ].
  apply IH. now apply dict_keys_setitem_nodup.
Qed.

Lemma discover_lookup s models : forall d n info,
  dict_lookup (fst (discover s models d)) n = Some info ->
  dict_lookup d n = Some info
  \/ (In n (map name models)
      /\ exists metadata, get_model_metadata s n = inr metadata /\ info = stored metadata).
Proof.
  induction models as [ | m models IH ]; intros d n info; cbn; [ auto | ].
  destruct (get_model_metadata s (name m)) as [e | metadata] eqn:Hm; cbn; [ auto | ].
  intros Hfound. destruct (IH _ _ _ Hfound) as [Hd | (Hin & Hmd)].
  - destruct (String.eqb_spec n (name m)) as [-> | Hne].
    + rewrite dict_lookup_setitem_same in Hd. injection Hd as <-.
      right. split; [ now left | now exists metadata ].
    + rewrite dict_lookup_setitem_other in Hd by exact Hne. now left.
  - right. split; [ now right | exact Hmd ].
Qed.

Lemma discover_all_found s models :
  (forall m, In m models -> exists metadata, get_model_metadata s (name m) = inr metadata) ->
  forall d,
    snd (discover s models d) = None
    /\ (forall n, dict_contains (fst (discover s models d)) n = true
                  <-> dict_contains d n = true \/ In n (map name models))
    /\ (List.NoDup (dict_keys d ++ map name models) ->
        dict_keys (fst (discover s models d)) = dict_keys d ++ map name models).
Proof.
  induction models as [ | m models IH ]; intros Hall d.
  - cbn. split; [ reflexivity | split ].
    + intros n. split; [ auto | intros [H | []]; exact H ].
    + now rewrite app_nil_r.
  - cbn [discover]. destruct (Hall m (or_introl eq_refl)) as [metadata ->].
    destruct (IH (fun m' H => Hall m' (or_intror H))
                 (dict_setitem d (name m) (stored metadata)))
      as (Hnone & Hkeys & Horder).
    split; [ exact Hnone | split ].
    + intros n. unfold stored in Hkeys. rewrite Hkeys, dict_contains_setitem.
      cbn [map In]. split; [ intros [[H | H] | H] | intros [H | [H | H]] ]; auto.
    + intros Hnd. unfold stored in Horder.
      assert (Hfresh : dict_contains d (name m) = false).
      { destruct (dict_contains d (name m)) eqn:Hc; [ | reflexivity ].
        apply dict_contains_keys in Hc. cbn [map] in Hnd.
        apply List.NoDup_remove_2 in Hnd. exfalso. apply Hnd.
        apply in_or_app. now left. }
      rewrite Horder; rewrite dict_keys_setitem, Hfresh.
      * cbn [map]. now rewrite <- app_assoc.
      * cbn [map] in Hnd. now rewrite <- app_assoc.
Qed.

(** The loop asks for the metadata of one model after the other and raises
    at the first whose call raises; the models after it are not asked for. *)
Lemma discovery_loop_stops w found m rest e : forall self,
  (forall m', In m' found ->
     exists metadata,
       get_model_metadata (server_at w (url (client self))) (name m') = inr metadata) ->
  get_model_metadata (server_at w (url (client self))) (name m) = inl e ->
  for_each (found ++ m :: rest) (discover_model w) self
  = (inl e,
     with_model_metadata self
       (fst (discover (server_at w (url (client self))) found (model_metadata self))),
     map (metadata_request (url (client self))) (found ++ [m])).
Proof.
  induction found as [ | m0 found IH ]; intros self Hfound Hm.
  - cbn [app for_each discover fst map]. unfold bind. rewrite discover_model_step, Hm.
    now rewrite with_model_metadata_same.
  - cbn [app for_each discover map]. unfold bind at 1. rewrite discover_model_step.
    destruct (Hfound m0 (or_introl eq_refl)) as [metadata ->].
    rewrite (IH (with_model_metadata self _));
      [ reflexivity | intros m' H; apply Hfound; now right | exact Hm ].
Qed.

Lemma discovery_loop_completes w models : forall self,
  (forall m, In m models ->
     exists metadata,
       get_model_metadata (server_at w (url (client self))) (name m) = inr metadata) ->
  for_each models (discover_model w) self
  = (inr tt,
     with_model_metadata self
       (fst (discover (server_at w (url (client self))) models (model_metadata self))),
     map (metadata_request (url (client self))) models).
Proof.
  induction models as [ | m models IH ]; intros self Hall.
  - cbn. now rewrite with_model_metadata_same.
  - cbn [for_each discover map]. unfold bind at 1. rewrite discover_model_step.
    destruct (Hall m (or_introl eq_refl)) as [metadata ->].
    rewrite (IH (with_model_metadata self _));
      [ reflexivity | intros m' H; apply Hall; now right ].
Qed.

(** X7.  Whatever Triton answers at startup, no two entries of the
    catalogue share a name, and every entry is a model of the repository
    index stored with the inputs, outputs and platform of Triton's metadata
    reply for that name. *)
Theorem catalogue_holds_indexed_models_once (w0 : world) :
  let s0 := server_at w0 "http://triton-server:8000" in
  List.NoDup (dict_keys (model_metadata (started w0)))
  /\ forall n info,
       dict_lookup (model_metadata (started w0)) n = Some info ->
       exists models metadata,
         get_model_repository_index s0 = inr models
         /\ In n (map name models)
         /\ get_model_metadata s0 n = inr metadata
         /\ info = {| info_inputs := reply_inputs metadata;
                      info_outputs := reply_outputs metadata;
                      info_platform := reply_platform metadata |}.
Proof.
  cbn zeta. rewrite started_agent. cbn [model_metadata with_model_metadata].
  unfold catalogue_after.
  destruct (get_model_repository_index _) as [e | models].
  - split; [ constructor | discriminate ].
  - split; [ apply discover_keys_nodup; constructor | ].
    intros n info Hfound.
    destruct (discover_lookup _ _ _ _ _ Hfound) as [Hnone | (Hin & metadata & Hmd & ->)];
      [ discriminate | ].
    now exists models, metadata.
Qed.

(** X8.  When the metadata call of a listed model raises, startup has asked
    for the index and for the metadata of the models up to that one, in the
    order of the index, and of none after it; it logs that error, does not
    log a count, and returns normally.  The catalogue holds exactly the
    models listed before the one that failed. *)
Theorem discovery_stops_at_first_failure
    (w0 : world) (found rest : list index_entry) (m : index_entry) (e : pyerror) :
  let endpoint := "http://triton-server:8000" in
  let s0 := server_at w0 endpoint in
  get_model_repository_index s0 = inr (found ++ m :: rest) ->
  (forall m', In m' found -> exists metadata, get_model_metadata s0 (name m') = inr metadata) ->
  get_model_metadata s0 (name m) = inl e ->
  App.startup w0 coordinator
  = (inr tt,
     started w0,
     Request endpoint GetModelRepositoryIndex
       :: map (fun m' => Request endpoint (GetModelMetadata (name m'))) (found ++ [m])
       ++ [LogErrorInitialize e])
  /\ (forall n, dict_contains (model_metadata (started w0)) n = true
               <-> In n (map name found)).
Proof.
  cbn zeta. intros Hindex Hfound Hm.
  assert (Hrun : App.startup w0 coordinator
                 = (inr tt,
                    with_model_metadata coordinator
                      (fst (discover (server_at w0 "http://triton-server:8000") found [])),
                    Request "http://triton-server:8000" GetModelRepositoryIndex
                      :: map (metadata_request "http://triton-server:8000") (found ++ [m])
                      ++ [LogErrorInitialize e])).
  { unfold App.startup, initialize, try_except.
    unfold bind at 1. unfold client_call at 1.
    unfold bind at 1. unfold bind at 1. unfold get_self at 1. cbn.
    rewrite Hindex. cbn. unfold bind at 1.
    rewrite (discovery_loop_stops w0 found m rest e coordinator Hfound Hm).
    cbn. reflexivity. }
  assert (Hstarted : started w0
                     = with_model_metadata coordinator
                         (fst (discover (server_at w0 "http://triton-server:8000") found []))).
  { unfold started. now rewrite Hrun. }
  split; [ now rewrite Hstarted | ].
  intros n. rewrite Hstarted. cbn [model_metadata with_model_metadata].
  destruct (discover_all_found _ found Hfound []) as (_ & Hkeys & _).
  rewrite Hkeys. cbn. split; [ intros [H | H]; [ discriminate | exact H ] | auto ].
Qed.

Lemma discovery_stops_at_first_failure_witness :
  App.startup partly_loaded coordinator
  = (inr tt,
     started partly_loaded,
     Request "http://triton-server:8000" GetModelRepositoryIndex
       :: map (fun m' => Request "http://triton-server:8000" (GetModelMetadata (name m')))
            ([IndexEntry "text_classifier"] ++ [IndexEntry "image_classifier"])
       ++ [LogErrorInitialize (PyError "InferenceServerException" "model not ready")])
  /\ (forall n, dict_contains (model_metadata (started partly_loaded)) n = true
               <-> In n (map name [IndexEntry "text_classifier"])).
Proof.
  apply (discovery_stops_at_first_failure partly_loaded
           [IndexEntry "text_classifier"] [] (IndexEntry "image_classifier")
           (PyError "InferenceServerException" "model not ready")).
  - reflexivity.
  - intros m' [<- | []]. now exists (example_metadata "text_classifier").
  - reflexivity.
Defined.

(** X9.  When every listed model answers its metadata call, startup asks
    for the index and then for each model's metadata in the order of the
    index, logs the number of entries stored, and the catalogue holds
    exactly the listed names.  If the index lists no name twice, /models
    then answers with the names in the order of the index and the logged
    count is the number of listed models. *)
Theorem full_discovery_lists_the_index
    (w0 : world) (models : list index_entry) :
  let endpoint := "http://triton-server:8000" in
  let s0 := server_at w0 endpoint in
  get_model_repository_index s0 = inr models ->
  (forall m, In m models -> exists metadata, get_model_metadata s0 (name m) = inr metadata) ->
  App.startup w0 coordinator
  = (inr tt,
     started w0,
     Request endpoint GetModelRepositoryIndex
       :: map (fun m => Request endpoint (GetModelMetadata (name m))) models
       ++ [LogInfoDiscovered (length (model_metadata (started w0)))])
  /\ (forall n, dict_contains (model_metadata (started w0)) n = true
               <-> In n (map name models))
  /\ (List.NoDup (map name models) ->
      App.list_models (started w0)
        = (inr [("models", map name models)], started w0, [])
      /\ length (model_metadata (started w0)) = length models).
Proof.
  cbn zeta. intros Hindex Hall.
  assert (Hstarted : started w0
                     = with_model_metadata coordinator
                         (fst (discover (server_at w0 "http://triton-server:8000") models []))).
  { rewrite started_agent. unfold catalogue_after. now rewrite Hindex. }
  destruct (discover_all_found _ models Hall []) as (_ & Hkeys & Horder).
  split; [ | split ].
  - rewrite Hstarted.
    unfold App.startup, initialize, try_except.
    unfold bind at 1. unfold client_call at 1.
    unfold bind at 1. unfold bind at 1. unfold get_self at 1. cbn.
    rewrite Hindex. cbn. unfold bind at 1.
    rewrite (discovery_loop_completes w0 models coordinator Hall).
    cbn. reflexivity.
  - intros n. rewrite Hstarted. cbn [model_metadata with_model_metadata].
    rewrite Hkeys. cbn. split; [ intros [H | H]; [ discriminate | exact H ] | auto ].
  - intros Hnd. specialize (Horder Hnd). cbn [dict_keys map app] in Horder.
    rewrite Hstarted. unfold App.list_models, bind, get_self, ret.
    cbn [model_metadata with_model_metadata app].
    change (map fst (fst (discover (server_at w0 "http://triton-server:8000") models [])))
      with (dict_keys (fst (discover (server_at w0 "http://triton-server:8000") models [])))
      in Horder.
    rewrite Horder. split; [ reflexivity | ].
    rewrite <- (length_map fst), <- (length_map name models).
    now f_equal.
Qed.

Lemma full_discovery_lists_the_index_witness :
  App.startup all_serving coordinator
  = (inr tt,
     started all_serving,
     Request "http://triton-server:8000" GetModelRepositoryIndex
       :: map (fun m => Request "http://triton-server:8000" (GetModelMetadata (name m)))
            example_index
       ++ [LogInfoDiscovered (length (model_metadata (started all_serving)))])
  /\ (forall n, dict_contains (model_metadata (started all_serving)) n = true
               <-> In n (map name example_index))
  /\ (List.NoDup (map name example_index) ->
      App.list_models (started all_serving)
        = (inr [("models", map name example_index)], started all_serving, [])
      /\ length (model_metadata (started all_serving)) = length example_index).
Proof.
  apply (full_discovery_lists_the_index all_serving example_index).
  - reflexivity.
  - intros m _. now exists (example_metadata (name m)).
Defined.

End CoordinatorMore.

(* ===================================================================== *)
(** ** The test scripts: what they wait for and when they stop             *)
(* ===================================================================== *)

Module ScriptFacts.
Import Scripts.
Local Open Scope nat_scope.
Local Open Scope sh_scope.

Lemma curls_app t t' : curls (t ++ t') = curls t ++ curls t'.
Proof.
  induction t as [ | ev t IH ]; [ reflexivity | ].
  destruct ev; cbn; now rewrite IH.
Qed.

Lemma slept_app t t' : slept (t ++ t') = slept t + slept t'.
Proof.
  induction t as [ | ev t IH ]; [ reflexivity | ].
  destruct ev; cbn; rewrite IH; lia.
Qed.

(** *** wait_for_service *)

Import TestSystem.

(** One turn of the loop. *)
Lemma wait_loop_step m url service_name max_attempts fuel attempt h :
  wait_loop m url service_name max_attempts (S fuel) attempt h
  = if attempt <=? max_attempts then
      match curl m h (CurlGet (url +:+ "/health")) with
      | Some _ =>
          (Returned 0,
           [Curl (CurlGet (url +:+ "/health"));
            Echo ("✅ " +:+ service_name +:+ " is ready")])
      | None =>
          let waiting := refused_attempt url service_name max_attempts attempt in
          match wait_loop m url service_name max_attempts fuel (attempt + 1)
                  (h ++ waiting) with
          | (r, t) => (r, waiting ++ t)
          end
      end
    else
      (Returned 1,
       [Echo ("❌ " +:+ service_name +:+ " failed to start after "
              +:+ decimal (max_attempts * 10) +:+ " seconds")]).
Proof.
  cbn [wait_loop]. destruct (attempt <=? max_attempts); [ | reflexivity ].
  unfold sh_bind at 1. unfold run_curl at 1. cbn beta iota.
  destruct (curl m h (CurlGet (url +:+ "/health"))); [ reflexivity | ].
  unfold sh_bind, echo, sleep, refused_attempt. cbn zeta.
  rewrite <- !app_assoc. cbn [app].
  now destruct (wait_loop _ _ _ _ _ _ _).
Qed.

Lemma refused_attempts_curls url service_name max_attempts k : forall attempt,
  curls (flat_map (refused_attempt url service_name max_attempts) (seq attempt k))
  = repeat (CurlGet (url +:+ "/health")) k.
Proof.
  induction k as [ | k IH ]; intros attempt; [ reflexivity | ].
  cbn. now rewrite IH.
Qed.

Lemma refused_attempts_slept url service_name max_attempts k : forall attempt,
  slept (flat_map (refused_attempt url service_name max_attempts) (seq attempt k))
  = 10 * k.
Proof.
  induction k as [ | k IH ]; intros attempt; [ reflexivity | ].
  cbn [seq flat_map refused_attempt app slept]. rewrite IH. lia.
Qed.

(** The loop from attempt [attempt] on, with fuel for the turns left and for
    the test that ends it.  [k] probes are refused, each followed by a sleep
    of 10 seconds; then either the next probe is answered, or no turn is
    left. *)
Lemma wait_loop_outcome m url service_name max_attempts :
  forall fuel attempt h,
    max_attempts + 2 <= fuel + attempt -> 1 <= fuel ->
    let probe := CurlGet (url +:+ "/health") in
    let waited n :=
      flat_map (refused_attempt url service_name max_attempts) (seq attempt n) in
    exists k,
      (forall i, i < k -> curl m (h ++ waited i) probe = None)
      /\ ((attempt + k <= max_attempts
           /\ curl m (h ++ waited k) probe <> None
           /\ wait_loop m url service_name max_attempts fuel attempt h
              = (Returned 0,
                 waited k ++ [Curl probe; Echo ("✅ " +:+ service_name +:+ " is ready")]))
          \/ (k = max_attempts + 1 - attempt
              /\ wait_loop m url service_name max_attempts fuel attempt h
                 = (Returned 1,
                    waited k
                      ++ [Echo ("❌ " +:+ service_name +:+ " failed to start after "
                                +:+ decimal (max_attempts * 10) +:+ " seconds")]))).
Proof.
  induction fuel as [ | fuel IH ]; intros attempt h Hfuel Hpos probe waited; [ lia | ].
  rewrite wait_loop_step.
  destruct (Nat.leb_spec attempt max_attempts) as [Hle | Hgt].
  - fold probe.
    destruct (curl m h probe) as [body | ] eqn:Hprobe.
    + exists 0. split; [ intros i Hi; lia | ]. left.
      unfold waited. cbn [seq flat_map app]. rewrite app_nil_r, Hprobe.
      split; [ lia | ]. split; [ discriminate | reflexivity ].
    + cbn zeta.
      destruct (IH (attempt + 1)
                   (h ++ refused_attempt url service_name max_attempts attempt)
                   ltac:(lia) ltac:(lia))
        as (k & Hrefused & Hcases).
      clear IH. cbn zeta in Hrefused, Hcases. fold probe in Hrefused, Hcases.
      assert (Hshift : forall n,
                 waited (S n)
                 = refused_attempt url service_name max_attempts attempt
                     ++ flat_map (refused_attempt url service_name max_attempts)
                          (seq (attempt + 1) n)).
      { intros n. unfold waited. cbn [seq flat_map]. now rewrite Nat.add_1_r. }
      exists (S k). split.
      * intros [ | i ] Hi.
        -- unfold waited. cbn [seq flat_map]. now rewrite app_nil_r.
        -- rewrite Hshift, app_assoc. apply Hrefused. lia.
      * rewrite Hshift.
        destruct Hcases as [(Hk & Hanswered & ->) | (Hk & ->)].
        -- left. split; [ lia | ]. split; [ now rewrite app_assoc | ].
           now rewrite <- app_assoc.
        -- right. split; [ lia | ]. now rewrite <- app_assoc.
  - exists 0. split; [ intros i Hi; lia | ]. right.
    split; [ lia | reflexivity ].
Qed.

(** X10.  wait_for_service probes the health endpoint of the URL at most 30
    times.  Every refused probe is followed by a sleep of 10 seconds, also
    the last one.  It returns 0 at the first probe that is answered, and
    returns 1 after 30 refused probes, having slept the 300 seconds its last
    line states. *)
Theorem wait_for_service_gives_up_after_300_seconds
    (m : machine) (url service_name : string) (h : list sh_event) :
  let probe := CurlGet (url +:+ "/health") in
  let started := Echo ("⏳ Waiting for " +:+ service_name +:+ " to be ready...") in
  let waited n := flat_map (refused_attempt url service_name 30) (seq 1 n) in
  exists k,
    k <= 30
    /\ (forall i, i < k -> curl m (h ++ started :: waited i) probe = None)
    /\ curls (snd (wait_for_service m url service_name h))
       = repeat probe (if fst (wait_for_service m url service_name h) is Returned 0
                       then S k else k)
    /\ slept (snd (wait_for_service m url service_name h)) = 10 * k
    /\ ((k < 30
         /\ curl m (h ++ started :: waited k) probe <> None
         /\ wait_for_service m url service_name h
            = (Returned 0,
               started :: waited k
                 ++ [Curl probe; Echo ("✅ " +:+ service_name +:+ " is ready")]))
        \/ (k = 30
            /\ wait_for_service m url service_name h
               = (Returned 1,
                  started :: waited 30
                    ++ [Echo ("❌ " +:+ service_name
                              +:+ " failed to start after 300 seconds")]))).
Proof.
  intros probe started waited.
  destruct (wait_loop_outcome m url service_name 30 31 1 (h ++ [started])
              ltac:(lia) ltac:(lia))
    as (k & Hrefused & Hcases).
  cbn zeta in Hrefused, Hcases. fold probe in Hrefused, Hcases.
  assert (Hrun : forall r t,
             wait_loop m url service_name 30 31 1 (h ++ [started]) = (r, t) ->
             wait_for_service m url service_name h = (r, started :: t)).
  { intros r t Hloop. unfold wait_for_service, sh_bind, echo. cbn zeta.
    fold started. rewrite Hloop. now destruct r. }
  assert (Hhist : forall t, (h ++ [started]) ++ t = h ++ started :: t).
  { intros t. now rewrite <- app_assoc. }
  exists k.
  destruct Hcases as [(Hk & Hanswered & Hloop) | (Hk & Hloop)];
    rewrite (Hrun _ _ Hloop); cbn [fst snd].
  - split; [ lia | ]. split; [ intros i Hi; rewrite <- Hhist; now apply Hrefused | ].
    split; [ | split ].
    + unfold started. cbn [curls]. rewrite curls_app. unfold waited.
      rewrite refused_attempts_curls. unfold probe. cbn [curls].
      now rewrite <- repeat_cons.
    + unfold started. cbn [slept]. rewrite slept_app. unfold waited.
      rewrite refused_attempts_slept. unfold probe. cbn [slept]. lia.
    + left. split; [ lia | ]. split; [ now rewrite <- Hhist | reflexivity ].
  - subst k. split; [ lia | ].
    split; [ intros i Hi; rewrite <- Hhist; now apply Hrefused | ].
    split; [ | split ].
    + unfold started. cbn [curls]. rewrite curls_app. unfold waited.
      rewrite refused_attempts_curls. cbn [curls]. now rewrite app_nil_r.
    + unfold started. cbn [slept]. rewrite slept_app. unfold waited.
      rewrite refused_attempts_slept. cbn [slept]. lia.
    + right. split; [ reflexivity | ]. reflexivity.
Qed.

(** *** The script test-system.sh *)






Ltac run_script :=
  cbn -[wait_for_service errexit grep_q String.app text_input image_input payload
        COORDINATOR_URL checks curls firstn repeat].







(** *** The script test-inference.sh *)

Lemma fst_sh_bind {A B} (c : Sh A) (k : A -> Sh B) h :
  fst (sh_bind c k h)
  = match fst (c h) with
    | Returned a => fst (k a (h ++ snd (c h)))
    | Exited status => Exited status
    | Unfinished => Unfinished
    end.
Proof.
  unfold sh_bind. destruct (c h) as [[a | status | ] t]; cbn [fst snd]; try reflexivity.
  now destruct (k a (h ++ t)).
Qed.

Lemma fst_errexit (c : Sh nat) h :
  fst (errexit c h)
  = match fst (c h) with
    | Returned 0 => Returned tt
    | Returned status => Exited status
    | Exited status => Exited status
    | Unfinished => Unfinished
    end.
Proof.
  unfold errexit. rewrite fst_sh_bind.
  now destruct (fst (c h)) as [[ | status] | status | ].
Qed.

Ltac status_step :=
  first [ rewrite fst_sh_bind | rewrite fst_errexit ];
  cbn [fst snd echo sh_ret sh_exit run_curl].

Lemma test_text_status m text h :
  fst (TestInference.test_text m text h) = Returned 0.
Proof.
  unfold TestInference.test_text.
  status_step. cbn zeta. status_step. status_step.
  destruct (curl m _ _) as [preprocess_response | ]; [ | now status_step ].
  do 3 status_step. status_step.
  destruct (curl m _ _) as [inference_response | ]; now repeat status_step.
Qed.

Lemma test_image_status m image_path h :
  fst (TestInference.test_image m image_path h)
  = Returned (if is_file m image_path then 0 else 1).
Proof.
  unfold TestInference.test_image.
  destruct (is_file m image_path); cbn [negb]; [ | now status_step ].
  status_step. cbn zeta. status_step. status_step.
  destruct (curl m _ _) as [preprocess_response | ]; [ | now status_step ].
  do 3 status_step. status_step.
  destruct (curl m _ _) as [inference_response | ]; now repeat status_step.
Qed.

Lemma test_file_upload_status m file_path model h :
  fst (TestInference.test_file_upload m file_path model h)
  = Returned (if is_file m file_path then 0 else 1).
Proof.
  unfold TestInference.test_file_upload.
  destruct (is_file m file_path); cbn [negb]; [ | now status_step ].
  status_step. status_step.
  destruct (curl m _ _) as [response | ]; now repeat status_step.
Qed.

Ltac script_status :=
  repeat first [ status_step
               | rewrite test_text_status
               | rewrite test_image_status
               | rewrite test_file_upload_status ].

(** X12.  The exit status of test-inference.sh depends on two things only:
    whether the coordinator's health check is answered, and, for the tests of
    an image or a file, whether that file is there.  Whether preprocessing or
    inference succeed changes what is printed, never the status: a run in
    which every test fails ends with status 0. *)
Theorem test_inference_status_ignores_results (m : machine) (args : list string) :
  let health :=
    curl m [Echo "🧪 AI Inference Testing Suite"; Echo "=============================="]
      (CurlGet (COORDINATOR_URL +:+ "/health")) in
  exit_status (fst (TestInference.main m args []))
  = Some (match health with
          | Some _ => if TestInference.needed_file_present m args then 0 else 1
          | None => 1
          end).
Proof.
  cbn zeta. unfold TestInference.main, TestInference.needed_file_present.
  do 3 status_step. cbn [app].
  destruct (curl m _ _) as [up | ]; [ | now repeat status_step ].
  cbn zeta. remember (arg_or args 1 "all") as mode eqn:Hmode. clear Hmode.
  destruct (String.eqb_spec mode "text") as [-> | _].
  { now script_status. }
  destruct (String.eqb_spec mode "image") as [-> | _].
  { script_status. destruct (is_file m _); now script_status. }
  destruct (String.eqb_spec mode "file") as [-> | _].
  { script_status. destruct (is_file m _); now script_status. }
  cbn [orb].
  destruct (is_file m "./test-data/sample.jpg") eqn:Hjpg;
    destruct (is_file m "./test-data/sample.txt") eqn:Htxt;
    script_status; rewrite ?Hjpg, ?Htxt; now script_status.
Qed.

(** X13.  A first argument other than text, image or file, such as the
    audio of the README, selects no test of its own: the script does exactly
    what it does without arguments, and reads no further argument. *)
Theorem unknown_test_runs_all_tests
    (m : machine) (args : list string) (h : list sh_event) :
  arg_or args 1 "all" <> "text" ->
  arg_or args 1 "all" <> "image" ->
  arg_or args 1 "all" <> "file" ->
  TestInference.main m args h = TestInference.main m [] h.
Proof.
  intros Htext Himage Hfile. unfold TestInference.main. cbn zeta.
  apply String.eqb_neq in Htext, Himage, Hfile.
  rewrite Htext, Himage, Hfile. reflexivity.
Qed.

Lemma unknown_test_runs_all_tests_witness :
  TestInference.main healthy_machine ["audio"; "./test-data/sample.wav"] []
  = TestInference.main healthy_machine [] [].
Proof.
  apply (unknown_test_runs_all_tests healthy_machine
           ["audio"; "./test-data/sample.wav"] []);
    discriminate.
Defined.

(** *** The scripts on the example machines *)

(** Nothing answers: test-system.sh gives up after 30 probes and 300
    seconds. *)
Example test_system_on_silent_machine :
  fst (TestSystem.main silent_machine []) = Exited 1
  /\ length (curls (snd (TestSystem.main silent_machine []))) = 30
  /\ slept (snd (TestSystem.main silent_machine [])) = 300.
Proof. repeat split; vm_compute; reflexivity. Qed.

(** Everything answers: test-system.sh makes one probe and its six
    requests. *)
Example test_system_on_healthy_machine :
  fst (TestSystem.main healthy_machine []) = Returned tt
  /\ curls (snd (TestSystem.main healthy_machine []))
     = CurlGet "http://localhost:8080/health" :: checks.
Proof. split; vm_compute; reflexivity. Qed.

(** Only the health check answers: test-inference.sh still ends with status
    0, after one refused request. *)
Example test_inference_on_health_only_machine :
  exit_status (fst (TestInference.main health_only_machine [] [])) = Some 0
  /\ curls (snd (TestInference.main health_only_machine [] []))
     = [CurlGet "http://localhost:8080/health";
        CurlPostJson "http://localhost:8080/preprocess"
          (TestInference.payload "text"
             "This is a sample text for AI classification and analysis"
             "text_classifier")].
Proof. split; vm_compute; reflexivity. Qed.

End ScriptFacts.

(* ===================================================================== *)
(** ** The model download script: where it stops                           *)
(* ===================================================================== *)

Module ProvisioningFacts.
Import Scripts.
Import Provisioning.
Local Open Scope nat_scope.
Local Open Scope fs_scope.

Lemma path_eqb_eq p q : path_eqb p q = true <-> p = q.
Proof.
  unfold path_eqb. destruct (List.list_eq_dec String.string_dec p q); split; congruence.
Qed.

Lemma put_same s p n : put s p n p = Some n.
Proof.
  unfold put. destruct (path_eqb p p) eqn:H; [ reflexivity | ].
  assert (path_eqb p p = true) by now apply path_eqb_eq. congruence.
Qed.

Lemma put_other s p n q : q <> p -> put s p n q = s q.
Proof.
  intros Hne. unfold put. destruct (path_eqb q p) eqn:H; [ | reflexivity ].
  apply path_eqb_eq in H. contradiction.
Qed.

(** [mkdir -p] writes no file, keeps every directory, and when it succeeds
    every directory on the way to its operand is there. *)
Lemma mkdir_p_below_effect below : forall above s,
  let made := fst (mkdir_p_below above below s) in
  let s' := snd (mkdir_p_below above below s) in
  (forall p content, s' p = Some (File content) <-> s p = Some (File content))
  /\ (forall p, s p = Some Dir -> s' p = Some Dir)
  /\ (made = true ->
      forall upper lower,
        below = upper ++ lower -> upper <> [] -> s' (above ++ upper) = Some Dir).
Proof.
  induction below as [ | c below IH ]; intros above s; cbn zeta.
  - cbn. split; [ tauto | ]. split; [ auto | ].
    intros _ upper lower Heq Hne. destruct upper; [ contradiction | discriminate ].
  - cbn [mkdir_p_below].
    destruct (s (above ++ [c])) as [[content | ] | ] eqn:Hhere.
    + cbn. split; [ tauto | ]. split; [ auto | discriminate ].
    + destruct (IH (above ++ [c]) s) as (Hfiles & Hdirs & Hmade).
      split; [ exact Hfiles | ]. split; [ exact Hdirs | ].
      intros Hok [ | c' upper ] lower Heq Hne; [ contradiction | ].
      injection Heq as <- Heq.
      destruct upper as [ | c'' upper ].
      * apply Hdirs. exact Hhere.
      * change (above ++ c :: c'' :: upper) with (above ++ [c] ++ c'' :: upper).
        rewrite app_assoc. apply (Hmade Hok (c'' :: upper) lower Heq). discriminate.
    + destruct (IH (above ++ [c]) (put s (above ++ [c]) Dir)) as (Hfiles & Hdirs & Hmade).
      split; [ | split ].
      * intros p content. rewrite Hfiles. unfold put.
        destruct (path_eqb p (above ++ [c])) eqn:Hp; [ | tauto ].
        apply path_eqb_eq in Hp. subst p. rewrite Hhere. split; discriminate.
      * intros p Hp. apply Hdirs. unfold put.
        now destruct (path_eqb p (above ++ [c])).
      * intros Hok [ | c' upper ] lower Heq Hne; [ contradiction | ].
        injection Heq as <- Heq.
        destruct upper as [ | c'' upper ].
        -- apply Hdirs. apply put_same.
        -- change (above ++ c :: c'' :: upper) with (above ++ [c] ++ c'' :: upper).
           rewrite app_assoc. apply (Hmade Hok (c'' :: upper) lower Heq). discriminate.
Qed.

Lemma mkdir_p_effect operands : forall s,
  let status := fst (mkdir_p operands s) in
  let s' := snd (mkdir_p operands s) in
  (status = 0 \/ status = 1)
  /\ (forall p content, s' p = Some (File content) <-> s p = Some (File content))
  /\ (forall p, s p = Some Dir -> s' p = Some Dir)
  /\ (status = 0 ->
      forall operand upper lower,
        In operand operands -> operand = upper ++ lower -> upper <> [] ->
        s' upper = Some Dir).
Proof.
  induction operands as [ | operand operands IH ]; intros s; cbn zeta.
  - cbn. split; [ now left | ]. split; [ tauto | ]. split; [ auto | ].
    intros _ operand upper lower [].
  - cbn [mkdir_p].
    destruct (mkdir_p_below_effect operand [] s) as (Hfiles & Hdirs & Hmade).
    destruct (mkdir_p_below [] operand s) as [made s1]. cbn [fst snd] in *.
    destruct (IH s1) as (Hstatus & Hfiles' & Hdirs' & Hall).
    destruct (mkdir_p operands s1) as [status s2]. cbn [fst snd] in *.
    split; [ destruct made; [ exact Hstatus | now right ] | ].
    split; [ intros p content; now rewrite Hfiles', Hfiles | ].
    split; [ auto | ].
    destruct made; [ | discriminate ].
    intros Hok operand' upper lower [<- | Hin] Heq Hne.
    + apply Hdirs'. now apply (Hmade eq_refl upper lower).
    + now apply (Hall Hok operand' upper lower).
Qed.

Lemma mkdir_p_existing s p :
  s [p] = Some Dir -> mkdir_p (@cons path [p] (@nil path)) s = (0, s).
Proof. intros Hp. cbn. now rewrite Hp. Qed.

(** X14.  download-models.sh never gets past its first model, whatever is
    in the directory it runs in.  Line 9 makes a directory named
    models/text_classifier/model.py, so the redirection of line 28 into that
    path fails and the script exits with status 1; if a directory cannot be
    made it has exited with status 1 before.  No file has been written, and
    the lines after "Creating mock model: text_classifier" are never
    printed. *)
Theorem download_models_stops_at_first_model (m : tools) (s : file_system) :
  exists s' out,
    download_models m s = (Exited 1, s', out)
    /\ (forall p content, s' p = Some (File content) <-> s p = Some (File content))
    /\ (out = ["📥 Downloading AI models for testing..."]
        \/ (out = ["📥 Downloading AI models for testing...";
                   "⬇️  Downloading text_classifier...";
                   "Creating mock model: text_classifier"]
            /\ s' ["models"; "text_classifier"; "model.py"] = Some Dir)).
Proof.
  unfold download_models.
  unfold fs_bind at 1. cbn [say].
  unfold fs_bind at 1. unfold or_exit at 1. unfold fs_bind at 1. unfold command at 1.
  destruct (mkdir_p_effect model_directories s) as (Hstatus & Hfiles & Hdirs & Hmade).
  destruct (mkdir_p model_directories s) as [status s1]. cbn [fst snd] in *.
  destruct Hstatus as [-> | ->]; cbn [Nat.eqb fs_ret fs_exit app].
  2: { exists s1, ["📥 Downloading AI models for testing..."]. auto. }
  specialize (Hmade eq_refl).
  assert (Hmodels : s1 ["models"] = Some Dir).
  { apply (Hmade ["models"; "text_classifier"; "model.py"]
             ["models"] ["text_classifier"; "model.py"]);
      [ cbn; tauto | reflexivity | discriminate ]. }
  assert (Hclassifier : s1 ["models"; "text_classifier"] = Some Dir).
  { apply (Hmade ["models"; "text_classifier"; "model.py"]
             ["models"; "text_classifier"] ["model.py"]);
      [ cbn; tauto | reflexivity | discriminate ]. }
  assert (Hmodel_py : s1 ["models"; "text_classifier"; "model.py"] = Some Dir).
  { apply (Hmade ["models"; "text_classifier"; "model.py"]
             ["models"; "text_classifier"; "model.py"] []);
      [ cbn; tauto | reflexivity | discriminate ]. }
  clear Hmade.
  unfold fs_bind at 1. unfold or_exit at 1. unfold fs_bind at 1. unfold command at 1.
  destruct (mkdir_p_effect [["triton-config"]] s1) as (Hstatus & Hfiles' & Hdirs' & _).
  destruct (mkdir_p [["triton-config"]] s1) as [status s2]. cbn [fst snd] in *.
  assert (Hfiles2 : forall p content,
             s2 p = Some (File content) <-> s p = Some (File content)).
  { intros p content. now rewrite Hfiles', Hfiles. }
  destruct Hstatus as [-> | ->]; cbn [Nat.eqb fs_ret fs_exit app].
  2: { exists s2, ["📥 Downloading AI models for testing..."]. auto. }
  apply Hdirs' in Hmodels, Hclassifier, Hmodel_py.
  exists s2, ["📥 Downloading AI models for testing...";
              "⬇️  Downloading text_classifier...";
              "Creating mock model: text_classifier"].
  split; [ | split; [ exact Hfiles2 | right; now split ] ].
  unfold fs_bind at 1. unfold or_exit at 1. unfold fs_bind at 1.
  unfold download_model.
  unfold fs_bind at 1. cbn [say].
  unfold fs_bind at 1. cbn [files].
  unfold is_regular_file. rewrite Hclassifier. cbn [negb].
  unfold fs_bind at 1. cbn [say].
  unfold fs_bind at 1. unfold or_exit at 1. unfold fs_bind at 1. unfold command at 1.
  cbn [dirname removelast]. rewrite (mkdir_p_existing s2 "models" Hmodels).
  cbn [Nat.eqb fs_ret]. cbn [String.eqb Ascii.eqb Bool.eqb].
  unfold fs_bind at 1. unfold or_exit at 1. unfold fs_bind at 1. unfold command at 1.
  unfold redirect. cbn [app is_directory]. rewrite Hmodel_py.
  reflexivity.
Qed.

(** The script run in an empty directory. *)
Example download_models_in_empty_directory :
  fst (fst (download_models idle_tools empty_directory)) = Exited 1
  /\ snd (download_models idle_tools empty_directory)
     = ["📥 Downloading AI models for testing...";
        "⬇️  Downloading text_classifier...";
        "Creating mock model: text_classifier"].
Proof. split; reflexivity. Qed.

End ProvisioningFacts.

(* ===================================================================== *)
(** ** The mock text classifier: what it answers                           *)
(* ===================================================================== *)

Module TritonModelFacts.
Import TritonModel.
Local Open Scope nat_scope.

Lemma set_items_first np x (c0 c1 : nat -> Q) (l : list nat) :
  set_items np (map (fun i => Axis [Scalar (c0 i); Scalar (c1 i)]) l) 0 x
  = inr (map (fun i => Axis [Scalar (float32 np x); Scalar (c1 i)]) l).
Proof.
  induction l as [ | i l IH ]; [ reflexivity | ].
  cbn [map set_items]. rewrite IH. reflexivity.
Qed.

Lemma set_items_second np y (c0 c1 : nat -> Q) (l : list nat) :
  set_items np (map (fun i => Axis [Scalar (c0 i); Scalar (c1 i)]) l) 1 y
  = inr (map (fun i => Axis [Scalar (c0 i); Scalar (float32 np y)]) l).
Proof.
  induction l as [ | i l IH ]; [ reflexivity | ].
  cbn [map set_items]. rewrite IH. reflexivity.
Qed.

Lemma map_constant {A B} (b : B) (l : list A) :
  map (fun _ => b) l = repeat b (length l).
Proof. induction l as [ | a l IH ]; [ reflexivity | ]. cbn. now rewrite IH. Qed.

(** One request: both columns are overwritten, so nothing is left of what
    the generator drew. *)
Lemma respond_outcome np request g :
  respond np request g
  = match get_input_tensor_by_name request "INPUT" with
    | None =>
        inl (Coordinator.AttributeError "'NoneType' object has no attribute 'as_numpy'")
    | Some input_tensor =>
        match as_numpy input_tensor with
        | Scalar _ => inl (Coordinator.PyError "IndexError" "tuple index out of range")
        | Axis items =>
            inr (MkInferenceResponse
                   [MkTensor "OUTPUT" (Axis (repeat (positive np) (length items)))],
                 g + length items * 2)
        end
    end.
Proof.
  unfold respond.
  destruct (get_input_tensor_by_name request "INPUT") as [[n [text | items]] | ];
    try reflexivity.
  cbn [as_numpy shape_0 random_rand seq map astype_float32].
  rewrite map_map. cbn [astype_float32 map]. unfold set_column.
  rewrite (set_items_first np (8 # 10)
             (fun i => float32 np (drawn np (g + i * 2 + 0)))
             (fun i => float32 np (drawn np (g + i * 2 + 1)))).
  rewrite (set_items_second np (2 # 10)
             (fun _ => float32 np (8 # 10))
             (fun i => float32 np (drawn np (g + i * 2 + 1)))).
  rewrite map_constant, length_seq. reflexivity.
Qed.

Lemma respond_to_all_outcome np requests : forall batches responses g,
  Forall2 (fun request b => batch_of request = Some b) requests batches ->
  respond_to_all np requests responses g
  = inr (responses
           ++ map (fun b => MkInferenceResponse
                              [MkTensor "OUTPUT" (Axis (repeat (positive np) b))])
                batches,
         g + 2 * list_sum batches).
Proof.
  induction requests as [ | request requests IH ]; intros batches responses g Hall.
  - inversion Hall. subst. cbn. rewrite app_nil_r. do 2 f_equal. lia.
  - inversion Hall as [ | ? b ? batches' Hb Hrest ]. subst.
    cbn [respond_to_all]. rewrite respond_outcome.
    unfold batch_of in Hb.
    destruct (get_input_tensor_by_name request "INPUT") as [[n [text | items]] | ];
      try discriminate.
    injection Hb as <-. cbn [as_numpy].
    rewrite (IH batches' _ _ Hrest). cbn [map].
    rewrite <- app_assoc. cbn [app]. do 2 f_equal.
    unfold list_sum. cbn [fold_right]. lia.
Qed.

Lemma respond_to_all_raises np requests : forall responses g request,
  In request requests -> batch_of request = None ->
  exists e, respond_to_all np requests responses g = inl e.
Proof.
  induction requests as [ | first requests IH ]; intros responses g request Hin Hnone;
    [ destruct Hin | ].
  cbn [respond_to_all].
  destruct (respond np first g) as [e | [response g']] eqn:Hfirst; [ now exists e | ].
  destruct Hin as [-> | Hin]; [ | now apply (IH _ _ request) ].
  rewrite respond_outcome in Hfirst. unfold batch_of in Hnone.
  destruct (get_input_tensor_by_name request "INPUT") as [[n [text | items]] | ];
    discriminate.
Qed.

(** X15.  The mock classifier answers each request with one tensor named
    OUTPUT that has one row per text of the request's INPUT, and every row is
    0.8 and 0.2 rounded to float32: whatever the texts are and whatever the
    random generator draws, although it draws two numbers per text.  If a
    request has no tensor named INPUT, or one without an axis, the whole call
    raises and no request is answered. *)
Theorem execute_scores_every_text_alike
    (np : numpy) (requests : list InferenceRequest) (g : nat) :
  (forall batches,
      Forall2 (fun request b => batch_of request = Some b) requests batches ->
      execute np requests g
      = inr (map (fun b => MkInferenceResponse
                             [MkTensor "OUTPUT" (Axis (repeat (positive np) b))])
               batches,
             g + 2 * list_sum batches))
  /\ (forall request,
        In request requests -> batch_of request = None ->
        exists e, execute np requests g = inl e).
Proof.
  split.
  - intros batches Hall. unfold execute.
    now rewrite (respond_to_all_outcome np requests batches [] g Hall).
  - intros request Hin Hnone. now apply (respond_to_all_raises np requests [] g request).
Qed.

(** Two requests, the second without a tensor named INPUT. *)
Example execute_on_two_texts :
  execute example_numpy [two_texts] 0
  = inr ([MkInferenceResponse
            [MkTensor "OUTPUT"
               (Axis [Axis [Scalar (8 # 10); Scalar (2 # 10)];
                      Axis [Scalar (8 # 10); Scalar (2 # 10)]])]],
         4)
  /\ execute example_numpy [two_texts; unnamed_input] 0
     = inl (Coordinator.AttributeError "'NoneType' object has no attribute 'as_numpy'").
Proof. split; reflexivity. Qed.

End TritonModelFacts.

(* ===================================================================== *)
(** ** Installation: what make install runs                                *)
(* ===================================================================== *)

Module InstallationFacts.
Import Scripts.
Import Provisioning.
Import ProvisioningFacts.
Import Installation.
Local Open Scope nat_scope.
Local Open Scope fs_scope.

(** *** How a script ends *)

Lemma ends_bind {A B} pre mid post (c : Fs A) (k : A -> Fs B) :
  ends pre c mid -> (forall a, ends mid (k a) post) -> ends pre (fs_bind c k) post.
Proof.
  intros Hc Hk s r s' out Hpre. unfold fs_bind.
  destruct (c s) as [[rc sc] outc] eqn:Hcs.
  specialize (Hc s rc sc outc Hpre Hcs).
  destruct rc as [a | status | ].
  - destruct (k a sc) as [[rk sk] outk] eqn:Hks. intros [= <- <- <-].
    exact (Hk a sc rk sk outk Hc Hks).
  - intros [= <- <- <-]. exact Hc.
  - intros [= <- <- <-]. exact I.
Qed.

Lemma ends_say pre line : ends pre (say line) pre.
Proof. intros s r s' out Hpre [= <- <- <-]. exact Hpre. Qed.

Lemma ends_ret {A} pre (a : A) : ends pre (fs_ret a) pre.
Proof. intros s r s' out Hpre [= <- <- <-]. exact Hpre. Qed.

Lemma ends_exit {A} pre post status :
  status <> 0 -> ends pre (@fs_exit A status) post.
Proof. intros Hs s r s' out Hpre [= <- <- <-]. exact Hs. Qed.

Lemma ends_if {A} pre post (b : bool) (c1 c2 : Fs A) :
  ends pre c1 post -> ends pre c2 post -> ends pre (if b then c1 else c2) post.
Proof. now destruct b. Qed.

Lemma ends_or_exit pre post (f : file_system -> nat * file_system) :
  (forall s, pre s -> fst (f s) = 0 -> post (snd (f s))) ->
  ends pre (or_exit (command f)) post.
Proof.
  intros Hf s r s' out Hpre. unfold or_exit, fs_bind, command.
  specialize (Hf s Hpre). destruct (f s) as [status sf]. cbn [fst snd] in Hf.
  destruct (Nat.eqb_spec status 0) as [-> | Hne]; cbn; intros [= <- <- <-]; auto.
Qed.

(** *** setup.sh leaves a directory named models *)

Lemma mkdir_p_keeps_models operands :
  ends has_models (or_exit (command (mkdir_p operands))) has_models.
Proof.
  apply ends_or_exit. intros s Hs _.
  destruct (mkdir_p_effect operands s) as (_ & _ & Hdirs & _). now apply Hdirs.
Qed.

Lemma mkdir_p_makes_models pre operands below :
  In ("models" :: below) operands ->
  ends pre (or_exit (command (mkdir_p operands))) has_models.
Proof.
  intros Hin. apply ends_or_exit. intros s _ Hok.
  destruct (mkdir_p_effect operands s) as (_ & _ & _ & Hmade).
  apply (Hmade Hok ("models" :: below) ["models"] below Hin); [ reflexivity | discriminate ].
Qed.

Lemma redirect_keeps_models p content :
  p <> ["models"] ->
  ends has_models (or_exit (command (redirect p content))) has_models.
Proof.
  intros Hp. apply ends_or_exit. intros s Hs _. unfold redirect.
  destruct (is_directory s p); [ exact Hs | ].
  destruct (is_directory s (dirname p)); [ | exact Hs ].
  cbn [snd]. unfold has_models. rewrite put_other; [ exact Hs | congruence ].
Qed.

Lemma python3_or_warn_keeps_models h program warning :
  keeps_models h -> ends has_models (python3_or_warn h program warning) has_models.
Proof.
  intros Hkeeps s r s' out Hs. unfold python3_or_warn.
  specialize (Hkeeps program s Hs).
  destruct (python3 (host_tools h) program s) as [[[ | status] sp] printed];
    cbn [fst snd] in Hkeeps; intros [= <- <- <-]; exact Hkeeps.
Qed.

Lemma setup_makes_models h :
  keeps_models h -> ends (fun _ => True) (setup h) has_models.
Proof.
  intros Hkeeps. unfold setup, chmod_scripts_or_true.
  do 2 (eapply ends_bind; [ apply ends_say | intros _ ]).
  eapply ends_bind;
    [ apply ends_if;
        [ eapply ends_bind; [ apply ends_say | intros _; now apply ends_exit ]
        | apply ends_ret ]
    | intros _ ].
  eapply ends_bind;
    [ apply ends_if;
        [ eapply ends_bind; [ apply ends_say | intros _; now apply ends_exit ]
        | apply ends_ret ]
    | intros _ ].
  eapply ends_bind;
    [ apply ends_if;
        [ do 2 (eapply ends_bind; [ apply ends_say | intros _ ]); apply ends_say
        | apply ends_say ]
    | intros _ ].
  eapply ends_bind; [ apply ends_say | intros _ ].
  eapply ends_bind;
    [ apply (mkdir_p_makes_models _ _ ["text_classifier"]); now left | intros _ ].
  do 3 (eapply ends_bind; [ apply mkdir_p_keeps_models | intros _ ]).
  eapply ends_bind; [ apply ends_say | intros _ ].
  do 3 (eapply ends_bind; [ apply redirect_keeps_models; discriminate | intros _ ]).
  eapply ends_bind; [ apply ends_say | intros _ ].
  eapply ends_bind; [ apply redirect_keeps_models; discriminate | intros _ ].
  eapply ends_bind; [ now apply python3_or_warn_keeps_models | intros _ ].
  eapply ends_bind; [ apply redirect_keeps_models; discriminate | intros _ ].
  eapply ends_bind; [ apply ends_ret | intros _ ].
  do 8 (eapply ends_bind; [ apply ends_say | intros _ ]).
  apply ends_say.
Qed.

(** *** make install *)

Lemma ends_files pre : ends pre files pre.
Proof. intros s r s' out Hpre [= <- <- <-]. exact Hpre. Qed.

Lemma ends_echo_line pre line : ends pre (echo_line line) pre.
Proof. intros s r s' out Hpre [= <- <- <-]. exact Hpre. Qed.

Lemma ends_command pre post (f : file_system -> nat * file_system) :
  (forall s, pre s -> post (snd (f s))) -> ends pre (command f) post.
Proof.
  intros Hf s r s' out Hpre. unfold command.
  specialize (Hf s Hpre). destruct (f s) as [status sf]. now intros [= <- <- <-].
Qed.

Lemma ends_weaken {A} (pre pre' post post' : file_system -> Prop) (c : Fs A) :
  (forall s, pre' s -> pre s) -> (forall s, post s -> post' s) ->
  ends pre c post -> ends pre' c post'.
Proof.
  intros Hpre Hpost Hc s r s' out Hs Hrun.
  specialize (Hc s r s' out (Hpre s Hs) Hrun). destruct r; auto.
Qed.

(** The last line of a recipe that runs a script. *)
Lemma ends_script_line pre post (script : Fs unit) :
  ends pre script post ->
  ends pre (status <- run_script script ;;
            if status =? 0 then run_recipe [] else fs_exit 2) post.
Proof.
  intros Hscript s r s' out Hpre. unfold fs_bind, run_script.
  destruct (script s) as [[[ [] | status | ] s1] out1] eqn:Hrun;
    specialize (Hscript s _ s1 out1 Hpre Hrun); cbn in Hscript.
  - cbn. intros [= <- <- <-]. exact Hscript.
  - destruct (Nat.eqb_spec status 0) as [-> | _]; [ contradiction | ].
    cbn. intros [= <- <- <-]. discriminate.
  - intros [= <- <- <-]. exact I.
Qed.

(** A script taken as any script: it returns with some status. *)
Lemma ends_unknown_script pre
    (script : file_system -> nat * file_system * list string) :
  ends pre
    (fun s => match script s with
              | (status, s', printed) => (Returned status, s', printed)
              end)
    (fun _ => True).
Proof.
  intros s r s' out _. destruct (script s) as [[status s1] printed].
  now intros [= <- <- <-].
Qed.

(** [make] on a goal that needs nothing. *)
Lemma make_leaf fuel rules phony goal r s :
  List.find (fun r => String.eqb (target r) goal) rules = Some r ->
  prerequisites r = [] ->
  make (S fuel) rules phony goal s
  = if existsb (String.eqb goal) phony || negb (present s [goal])
    then (run_recipe (recipe r) ;;; fs_ret true) s
    else (Returned false, s, []).
Proof.
  intros Hrule Hnone. cbn [make]. rewrite Hrule, Hnone.
  unfold fs_bind at 1. cbn [fs_ret]. unfold fs_bind at 1. cbn [files app].
  rewrite orb_false_r.
  destruct (existsb (String.eqb goal) phony || negb (present s [goal]));
    [ | reflexivity ].
  now destruct ((run_recipe (recipe r) ;;; fs_ret true) s) as [[? ?] ?].
Qed.

Lemma setup_is_phony : existsb (String.eqb "setup") PHONY = true.
Proof. reflexivity. Qed.

Lemma validate_is_phony : existsb (String.eqb "validate") PHONY = true.
Proof. reflexivity. Qed.

Lemma install_is_phony : existsb (String.eqb "install") PHONY = true.
Proof. reflexivity. Qed.

Lemma models_is_not_phony : existsb (String.eqb "models") PHONY = false.
Proof. reflexivity. Qed.

(** The Makefile's rule for setup, remade: when it returns, models is
    there. *)
Lemma setup_rule_makes_models h fuel rules :
  keeps_models h ->
  List.find (fun r => String.eqb (target r) "setup") rules = Some (setup_rule h) ->
  ends (fun _ => True) (make (S fuel) rules PHONY "setup") has_models.
Proof.
  intros Hkeeps Hrule.
  assert (Hrecipe : ends (fun _ => True)
                      (run_recipe (recipe (setup_rule h)) ;;; fs_ret true) has_models);
    [ | intros s r s' out Hpre;
        rewrite (make_leaf fuel rules PHONY "setup" (setup_rule h) s Hrule eq_refl);
        rewrite setup_is_phony; cbn [orb]; now apply Hrecipe ].
  eapply ends_bind; [ | intros _; apply ends_ret ].
  cbn [recipe setup_rule run_recipe].
  eapply ends_bind; [ apply ends_echo_line | intros status ].
  apply ends_if; [ | now apply ends_exit ].
  eapply (ends_bind _ (fun _ => True));
    [ apply ends_command; intros s _; exact I | intros status' ].
  apply ends_if; [ | now apply ends_exit ].
  apply ends_script_line. now apply setup_makes_models.
Qed.

Lemma validate_rule_ends h fuel rules :
  List.find (fun r => String.eqb (target r) "validate") rules = Some (validate_rule h) ->
  ends (fun _ => True) (make (S fuel) rules PHONY "validate") (fun _ => True).
Proof.
  intros Hrule.
  assert (Hrecipe : ends (fun _ => True)
                      (run_recipe (recipe (validate_rule h)) ;;; fs_ret true)
                      (fun _ => True));
    [ | intros s r s' out Hpre;
        rewrite (make_leaf fuel rules PHONY "validate" (validate_rule h) s Hrule eq_refl);
        rewrite validate_is_phony; cbn [orb]; now apply Hrecipe ].
  eapply ends_bind; [ | intros _; apply ends_ret ].
  cbn [recipe validate_rule run_recipe].
  eapply ends_bind; [ apply ends_echo_line | intros status ].
  apply ends_if; [ | now apply ends_exit ].
  eapply (ends_bind _ (fun _ => True));
    [ apply ends_command; intros s _; exact I | intros status' ].
  apply ends_if; [ | now apply ends_exit ].
  eapply ends_bind; [ apply ends_unknown_script | intros status'' ].
  apply ends_if; [ apply ends_ret | now apply ends_exit ].
Qed.

(** A target that is not phony, needs nothing and is there: nothing is
    run. *)
Lemma make_models_skipped fuel rules r s :
  List.find (fun r => String.eqb (target r) "models") rules = Some r ->
  prerequisites r = [] ->
  has_models s ->
  make (S fuel) rules PHONY "models" s = (Returned false, s, []).
Proof.
  intros Hrule Hnone Hs.
  rewrite (make_leaf fuel rules PHONY "models" r s Hrule Hnone).
  rewrite models_is_not_phony. unfold present. now rewrite Hs.
Qed.

Lemma fs_bind_same {A B} (c c' : Fs A) (k k' : A -> Fs B) s :
  c s = c' s ->
  (forall a s' out, c s = (Returned a, s', out) -> k a s' = k' a s') ->
  fs_bind c k s = fs_bind c' k' s.
Proof.
  intros Hc Hk. unfold fs_bind. rewrite <- Hc.
  destruct (c s) as [[[a | status | ] s'] out]; try reflexivity.
  now rewrite (Hk a s' out eq_refl).
Qed.

(** [make install] with the rules of the Makefile, whatever the recipes. *)
Lemma make_install_steps rules s :
  List.find (fun r => String.eqb (target r) "install") rules = Some install_rule ->
  make_install rules s
  = (fs_bind
       (validated <- make 1 rules PHONY "validate" ;;
        others <- (set_up <- make 1 rules PHONY "setup" ;;
                   others <- (downloaded <- make 1 rules PHONY "models" ;;
                              others <- fs_ret false ;;
                              fs_ret (downloaded || others)) ;;
                   fs_ret (set_up || others)) ;;
        fs_ret (validated || others))
       (fun _ => run_recipe (recipe install_rule) ;;; fs_ret true)) s.
Proof.
  intros Hrule. unfold make_install. cbn [make]. rewrite Hrule.
  cbn [prerequisites install_rule]. rewrite install_is_phony. cbn [orb].
  apply fs_bind_same; [ reflexivity | ]. intros remade s' out _.
  unfold fs_bind at 1. cbn [files app].
  now destruct ((run_recipe (recipe install_rule) ;;; fs_ret true) s') as [[? ?] ?].
Qed.

(** Whatever the recipe of models is, make install does the same. *)
Lemma make_install_whatever_the_recipe h s c1 c2 :
  keeps_models h ->
  make_install (with_recipe "models" c1 (makefile h)) s
  = make_install (with_recipe "models" c2 (makefile h)) s.
Proof.
  intros Hkeeps.
  rewrite !make_install_steps by reflexivity.
  apply fs_bind_same; [ | reflexivity ].
  apply fs_bind_same.
  { rewrite (make_leaf 0 (with_recipe "models" c1 (makefile h)) PHONY "validate"
               (validate_rule h) s eq_refl eq_refl).
    now rewrite (make_leaf 0 (with_recipe "models" c2 (makefile h)) PHONY "validate"
                   (validate_rule h) s eq_refl eq_refl). }
  intros validated s1 out1 _.
  apply fs_bind_same; [ | reflexivity ].
  apply fs_bind_same.
  { rewrite (make_leaf 0 (with_recipe "models" c1 (makefile h)) PHONY "setup"
               (setup_rule h) s1 eq_refl eq_refl).
    now rewrite (make_leaf 0 (with_recipe "models" c2 (makefile h)) PHONY "setup"
                   (setup_rule h) s1 eq_refl eq_refl). }
  intros set_up s2 out2 Hsetup.
  assert (Hmodels : has_models s2).
  { exact (setup_rule_makes_models h 0 (with_recipe "models" c1 (makefile h))
             Hkeeps eq_refl s1 (Returned set_up) s2 out2 I Hsetup). }
  apply fs_bind_same; [ | reflexivity ].
  apply fs_bind_same; [ | reflexivity ].
  rewrite (make_models_skipped 0 (with_recipe "models" c1 (makefile h))
             {| target := "models"; prerequisites := []; recipe := c1 |}
             s2 eq_refl eq_refl Hmodels).
  now rewrite (make_models_skipped 0 (with_recipe "models" c2 (makefile h))
                 {| target := "models"; prerequisites := []; recipe := c2 |}
                 s2 eq_refl eq_refl Hmodels).
Qed.

(** X16.  make install never runs download-models.sh.  The target models is
    not phony and setup.sh, run just before as the recipe of setup, leaves a
    directory of that name, so make takes models to be up to date: whatever
    the recipe of models is, make install does the same.  When it succeeds
    it ends with "Installation complete!", the directory models is there, and
    the download was skipped. *)
Theorem make_install_never_runs_the_download
    (h : host) (s : file_system) (other : list (Fs nat)) :
  keeps_models h ->
  make_install (with_recipe "models" other (makefile h)) s = make_install (makefile h) s
  /\ forall remade s' out,
       make_install (makefile h) s = (Returned remade, s', out) ->
       has_models s'
       /\ exists out0,
            out = out0 ++ ["✅ Installation complete!";
                           "💡 Next steps:";
                           "   make start     - Start the system";
                           "   make test      - Run tests"].
Proof.
  intros Hkeeps. split.
  - exact (make_install_whatever_the_recipe h s other (recipe (models_rule h)) Hkeeps).
  - intros remade s' out.
    rewrite make_install_steps by reflexivity.
    assert (Hneeds : ends (fun _ => True)
              (validated <- make 1 (makefile h) PHONY "validate" ;;
               others <- (set_up <- make 1 (makefile h) PHONY "setup" ;;
                          others <- (downloaded <- make 1 (makefile h) PHONY "models" ;;
                                     others <- fs_ret false ;;
                                     fs_ret (downloaded || others)) ;;
                          fs_ret (set_up || others)) ;;
               fs_ret (validated || others))
              has_models).
    { eapply ends_bind; [ now apply (validate_rule_ends h) | intros validated ].
      eapply ends_bind; [ | intros others; apply ends_ret ].
      eapply ends_bind; [ now apply (setup_rule_makes_models h) | intros set_up ].
      eapply ends_bind; [ | intros others; apply ends_ret ].
      eapply ends_bind; [ | intros downloaded;
                            eapply ends_bind; [ apply ends_ret | intros; apply ends_ret ] ].
      intros s2 r s3 out3 Hmodels.
      rewrite (make_models_skipped 0 (makefile h) (models_rule h) s2
                 eq_refl eq_refl Hmodels).
      now intros [= <- <- <-]. }
    unfold fs_bind at 1.
    match goal with
    | |- context [ match ?needs s with _ => _ end ] =>
        specialize (Hneeds s); destruct (needs s) as [[[needed | status | ] s1] out1]
    end; try discriminate.
    specialize (Hneeds _ _ _ I eq_refl). cbn in Hneeds.
    cbn. intros [= <- <- <-]. split; [ exact Hneeds | ].
    exists out1. reflexivity.
Qed.

Lemma make_install_never_runs_the_download_witness :
  make_install (with_recipe "models" [] (makefile docker_host)) checkout
  = make_install (makefile docker_host) checkout
  /\ forall remade s' out,
       make_install (makefile docker_host) checkout = (Returned remade, s', out) ->
       has_models s'
       /\ exists out0,
            out = out0 ++ ["✅ Installation complete!";
                           "💡 Next steps:";
                           "   make start     - Start the system";
                           "   make test      - Run tests"].
Proof.
  apply (make_install_never_runs_the_download docker_host checkout []).
  intros program s Hs. exact Hs.
Defined.

(** make install on a checkout: it succeeds, having written the two model
    configurations and no model. *)
Example make_install_on_a_checkout :
  fst (fst (make_install (makefile docker_host) checkout)) = Returned true
  /\ (snd (fst (make_install (makefile docker_host) checkout)))
       ["models"; "text_classifier"; "1"; "model.py"] = None
  /\ In "✅ Setup complete!" (snd (make_install (makefile docker_host) checkout))
  /\ ~ In "📥 Downloading AI models..." (snd (make_install (makefile docker_host) checkout)).
Proof.
  split; [ vm_compute; reflexivity | ].
  split; [ vm_compute; reflexivity | ].
  split; [ vm_compute; tauto | ].
  vm_compute. intros H. repeat (destruct H as [H | H]; [ discriminate H | ]). exact H.
Qed.

End InstallationFacts.
